(** * CineSwap Pro: request/response adapter and session orchestration

  A shallow embedding of [services/geminiService.ts] (aspect-ratio
  selection, payload assembly, response resolution, failure translation),
  of the [handleProcess] handler of [App.tsx] and of the records of
  [types.ts], followed by the properties the specification states about
  them; then of the other handlers and render conditions of [App.tsx] and
  of the file selection of [components/ImageInput.tsx], with the
  properties the code itself shows.

  Conventions of the embedding:
  - a JavaScript [number] is an IEEE-754 binary64 value, modelled by
    [spec_float] with precision 53 and maximal exponent 1024, so that
    [/], [-], [Math.abs] and [<] round and compare exactly as the
    engine does;
  - a JavaScript string is a [string] (its UTF-8 bytes); searching an
    ASCII needle in it agrees with searching UTF-16 code units;
  - an optional field or parameter ([x?: T], [T | null]) is an [option];
  - [throw] and [return] inside the [async] function are the two
    constructors of [Completion]; a rejected promise is a [Throw];
  - the remote model is a parameter [generateContent], and every request
    handed to it is recorded in a log, so that "no remote call" can be
    stated. *)

From Stdlib Require Import ZArith Bool List String Ascii Lia.
From Stdlib Require Import Floats.SpecFloat.
From Stdlib Require QArith Qabs.
Import ListNotations.
Open Scope string_scope.

(** ** JavaScript numbers *)

Module Number.

Definition number : Type := spec_float.

Definition prec : Z := 53.
Definition emax : Z := 1024.

(** An integer literal, or an integral pixel dimension. *)
Definition of_Z (z : Z) : number := binary_normalize prec emax z 0 false.

Definition zero : number := S754_zero false.

Definition div : number -> number -> number := SFdiv prec emax.
Definition sub : number -> number -> number := SFsub prec emax.
Definition abs : number -> number := SFabs.
Definition ltb : number -> number -> bool := SFltb.

(** [ToBoolean] on a number: [+0], [-0] and [NaN] are falsy. *)
Definition truthy (x : number) : bool :=
  match x with
  | S754_zero _ | S754_nan => false
  | S754_infinity _ | S754_finite _ _ _ => true
  end.

Definition is_nan (x : number) : bool :=
  match x with S754_nan => true | _ => false end.

(** Values that [Math.abs] can return apart from [NaN]. *)
Definition nonneg (x : number) : bool :=
  match x with
  | S754_nan => false
  | S754_zero s | S754_infinity s | S754_finite s _ _ => negb s
  end.

(** A non-negative number seen as a point of [Z * Z * Z] ordered
    lexicographically: zero, then the finite values by exponent and
    mantissa, then infinity. *)
Definition key (x : number) : Z * Z * Z :=
  match x with
  | S754_finite _ m e => (1, e, Zpos m)
  | S754_infinity _ => (2, 0, 0)
  | _ => (0, 0, 0)
  end%Z.

Definition lex_lt (a b : Z * Z * Z) : Prop :=
  let '(a1, a2, a3) := a in
  let '(b1, b2, b3) := b in
  (a1 < b1 \/ (a1 = b1 /\ (a2 < b2 \/ (a2 = b2 /\ a3 < b3))))%Z.

End Number.

(** ** JavaScript strings *)

Module JSString.

(** [s.includes(sub)]: [sub] occurs in [s] at some position. *)
Fixpoint includes (s sub : string) : bool :=
  if prefix sub s then true
  else match s with
       | EmptyString => false
       | String _ s' => includes s' sub
       end.

(** [ToBoolean] on a string: only the empty string is falsy. *)
Definition truthy (s : string) : bool :=
  match s with
  | EmptyString => false
  | String _ _ => true
  end.

End JSString.

(** ** Completions: [return] and [throw] *)

Module Control.

(** A thrown value, as far as the code looks at it: [error.message]. *)
Record JsError : Type := { message : option string }.

(** [new Error(msg)]. *)
Definition Error (msg : string) : JsError := {| message := Some msg |}.

Inductive Completion (A : Type) : Type :=
| Return (a : A)
| Throw (e : JsError).
Arguments Return {A} a.
Arguments Throw {A} e.

Definition bind {A B} (c : Completion A) (k : A -> Completion B) : Completion B :=
  match c with
  | Return a => k a
  | Throw e => Throw e
  end.

(** [try { c } catch (error) { handler error }]. *)
Definition tryCatch {A} (c : Completion A) (handler : JsError -> Completion A)
  : Completion A :=
  match c with
  | Return a => Return a
  | Throw e => handler e
  end.

End Control.

(** ** [types.ts] *)

Module Types.
Import Number.

Record UploadedImage : Type := {
  id : string;
  url : string;
  base64 : string;
  mimeType : string;
  name : string;
  width : option number;
  height : option number
}.

Record AppState : Type := {
  poster : option UploadedImage;
  people : list UploadedImage;
  isProcessing : bool;
  result : option string;
  error : option string
}.

End Types.

(** ** The part of the [@google/genai] interface the adapter touches *)

Module GenAI.
Import Control.

(** Modelled from the spec: the SDK's request and response types are not
    part of the sources.  A response holds zero or more candidates, each
    with an optional finish reason and zero or more content parts that
    carry an inline binary payload or a text; every level is optional,
    as the code probes it with [?.]. *)
Record Blob : Type := { data : string; mimeType : string }.

Record Part : Type := { inlineData : option Blob; text : option string }.

Record Content : Type := { parts : option (list Part) }.

Record Candidate : Type := {
  content : option Content;
  finishReason : option string
}.

Record GenerateContentResponse : Type := {
  candidates : option (list Candidate)
}.

Record ImageConfig : Type := { aspectRatio : string; imageSize : string }.

Record GenerateContentConfig : Type := { imageConfig : ImageConfig }.

Record GenerateContentParameters : Type := {
  model : string;
  contents : Content;
  config : GenerateContentConfig
}.

(** [ai.models.generateContent], awaited: it answers or it throws. *)
Definition Models : Type :=
  GenerateContentParameters -> Completion GenerateContentResponse.

End GenAI.


(** ** [services/geminiService.ts] *)

Module GeminiService.
Import Number Control GenAI.

(** *** Aspect-ratio selection *)

Record Ratio : Type := { name : string; value : number }.

Definition supported : list Ratio :=
  [ {| name := "9:16"; value := div (of_Z 9) (of_Z 16) |};
    {| name := "3:4";  value := div (of_Z 3) (of_Z 4) |};
    {| name := "1:1";  value := of_Z 1 |};
    {| name := "4:3";  value := div (of_Z 4) (of_Z 3) |};
    {| name := "16:9"; value := div (of_Z 16) (of_Z 9) |} ].

(** [Array.prototype.reduce] without an initial value: the first element
    seeds the accumulator; on an empty array it raises a [TypeError]
    (here [None]). *)
Definition reduce {A : Type} (f : A -> A -> A) (l : list A) : option A :=
  match l with
  | [] => None
  | x :: xs => Some (fold_left f xs x)
  end.

(** [Math.abs(c.value - ratio)]. *)
Definition distance (ratio : number) (c : Ratio) : number :=
  abs (sub (value c) ratio).

(** The callback of the [reduce]. *)
Definition closer (ratio : number) (prev curr : Ratio) : Ratio :=
  if ltb (distance ratio curr) (distance ratio prev) then curr else prev.

(** [!x] on an optional number. *)
Definition falsy (x : option number) : bool :=
  match x with
  | None => true
  | Some v => negb (truthy v)
  end.

Definition getClosestAspectRatio (width height : option number) : string :=
  if falsy width || falsy height then "3:4" (* Default for posters *)
  else
    match width, height with
    | Some w, Some h =>
        let ratio := div w h in
        match reduce (closer ratio) supported with
        | Some closest => name closest
        | None => "3:4" (* unreachable: [supported] is not empty *)
        end
    | _, _ => "3:4" (* unreachable: excluded by the guard *)
    end.

(** *** Payload assembly *)

Definition prompt : string :=
"TASK: HIGH-END CINEMATIC CHARACTER COMPOSITE AND CREATIVE IMAGE EDITING.
    
    CONTEXT:
    This is a creative personal project. I am providing a Master Poster (Image 1) and a series of Source Character Portraits (Image 2 onwards). 
    The goal is to professionally integrate the Source Character Portraits into the Master Poster, replacing the main characters shown.
    
    SPECIFIC INSTRUCTIONS:
    1. SEQUENTIAL MAPPING: 
       - Replace the characters in the poster in the EXACT sequence the Source Portraits are provided.
       - Source 1 replaces the first character (usually the most prominent or leftmost).
       - Source 2 replaces the second character, and so on.
    
    2. PERSPECTIVE & ANATOMY:
       - Match the exact 3D orientation, head tilt, and eye gaze of the original character in the poster. 
       - The composite must feel anatomically correct and consistent with the poster's original perspective.
    
    3. CINEMATIC LIGHTING & TEXTURE:
       - Replicate the complex lighting of the scene on the new characters (rim lights, key lights, shadows).
       - Match the original color temperature, skin tone grading, and photographic film grain of the original poster perfectly.
    
    4. PRESERVATION:
       - DO NOT modify the background, props, costumes (unless needed for seamless integration), or any graphic design elements like titles, logos, and billing blocks.
    
    FINAL RESULT:
    A seamless, high-resolution cinematic poster where the new characters look like they were photographed on-set for this specific production.".

Definition inlinePart (image : Types.UploadedImage) : Part :=
  {| inlineData := Some {| data := Types.base64 image;
                           mimeType := Types.mimeType image |};
     text := None |}.

Definition textPart (t : string) : Part :=
  {| inlineData := None; text := Some t |}.

(** The local constant [parts]. *)
Definition requestParts (poster : Types.UploadedImage)
    (people : list Types.UploadedImage) : list Part :=
  (inlinePart poster :: map inlinePart people ++ [textPart prompt])%list.

Definition request (poster : Types.UploadedImage)
    (people : list Types.UploadedImage) : GenerateContentParameters :=
  let targetRatio :=
    getClosestAspectRatio (Types.width poster) (Types.height poster) in
  {| model := "gemini-3-pro-image-preview";
     contents := {| parts := Some (requestParts poster people) |};
     config := {| imageConfig := {| aspectRatio := targetRatio;
                                    imageSize := "1K" |} |} |}.

(** *** Response resolution *)

Definition SAFETY_MESSAGE : string :=
  "由於安全性原則（可能包含受保護的人物或敏感內容），AI 拒絕生成此圖片。請嘗試更換海報或照片內容再試一次。".

Definition GENERATION_EMPTY_MESSAGE : string :=
  "AI 無法生成圖片，請檢查圖片內容是否清晰或符合規範。".

Definition TEXT_FEEDBACK_PREFIX : string := "AI 回應：".

Definition GENERATION_FAILED_MESSAGE : string :=
  "未能成功獲取置換後的影像。".

Definition PNG_PREFIX : string := "data:image/png;base64,".

Definition ENTITY_NOT_FOUND : string := "Requested entity was not found".

Definition KEY_NOT_FOUND : string := "KEY_NOT_FOUND".

Definition FALLBACK_MESSAGE : string := "生成過程中發生未知錯誤。".

(** [response.candidates?.[0]]. *)
Definition firstCandidate (response : GenerateContentResponse)
  : option Candidate :=
  match candidates response with
  | Some (c :: _) => Some c
  | _ => None
  end.

(** [candidate.content?.parts], [undefined] when there is no candidate. *)
Definition contentParts (candidate : option Candidate) : option (list Part) :=
  match candidate with
  | Some c =>
      match content c with
      | Some ct => parts ct
      | None => None
      end
  | None => None
  end.

(** [candidate?.finishReason === 'SAFETY']. *)
Definition finishedForSafety (candidate : option Candidate) : bool :=
  match candidate with
  | Some c =>
      match finishReason c with
      | Some r => String.eqb r "SAFETY"
      | None => false
      end
  | None => false
  end.

(** The [for ... of] loop: it returns at the first part that has
    [inlineData]. *)
Fixpoint firstInlineData (ps : list Part) : option Blob :=
  match ps with
  | [] => None
  | part :: rest =>
      match inlineData part with
      | Some blob => Some blob
      | None => firstInlineData rest
      end
  end.

(** The predicate [p => p.text] of the [find]. *)
Definition hasText (p : Part) : bool :=
  match text p with
  | Some t => JSString.truthy t
  | None => false
  end.

(** The statements of the [try] block that follow the [await]. *)
Definition resolveResponse (response : GenerateContentResponse)
  : Completion string :=
  let candidate := firstCandidate response in
  match contentParts candidate with
  | None =>
      if finishedForSafety candidate then Throw (Error SAFETY_MESSAGE)
      else Throw (Error GENERATION_EMPTY_MESSAGE)
  | Some ps =>
      match firstInlineData ps with
      | Some blob => Return (PNG_PREFIX ++ data blob)
      | None =>
          match find hasText ps with
          | Some {| text := Some t |} =>
              if JSString.truthy t
              then Throw (Error (TEXT_FEEDBACK_PREFIX ++ t))
              else Throw (Error GENERATION_FAILED_MESSAGE)
          | _ => Throw (Error GENERATION_FAILED_MESSAGE)
          end
      end
  end.

(** *** Failure translation: the [catch] clause *)

(** [error.message?.includes("Requested entity was not found")]. *)
Definition entityNotFound (error : JsError) : bool :=
  match message error with
  | Some m => JSString.includes m ENTITY_NOT_FOUND
  | None => false
  end.

(** [error.message || "..."]. *)
Definition messageOrFallback (error : JsError) : string :=
  match message error with
  | Some m => if JSString.truthy m then m else FALLBACK_MESSAGE
  | None => FALLBACK_MESSAGE
  end.

Definition translateFailure {A : Type} (error : JsError) : Completion A :=
  if entityNotFound error then Throw (Error KEY_NOT_FOUND)
  else Throw (Error (messageOrFallback error)).

(** The [try]/[catch] around the call and the resolution of its answer. *)
Definition settle (answer : Completion GenerateContentResponse)
  : Completion string :=
  tryCatch (bind answer resolveResponse) translateFailure.

(** The function itself: the settled promise, and the requests it sent. *)
Definition generateSwappedPoster (generateContent : Models)
    (poster : Types.UploadedImage) (people : list Types.UploadedImage)
  : Completion string * list GenerateContentParameters :=
  let sent := request poster people in
  (settle (generateContent sent), [sent]).

End GeminiService.


(** ** [App.tsx]: the generation handler *)

Module App.
Import Control GenAI Types.

(** The component's two state cells, and the log of the requests sent to
    the remote model. *)
Record World : Type := {
  hasKey : bool;
  state : AppState;
  remoteCalls : list GenerateContentParameters
}.

Definition setState (update : AppState -> AppState) (w : World) : World :=
  {| hasKey := hasKey w;
     state := update (state w);
     remoteCalls := remoteCalls w |}.

Definition setHasKey (b : bool) (w : World) : World :=
  {| hasKey := b; state := state w; remoteCalls := remoteCalls w |}.

Definition record (sent : list GenerateContentParameters) (w : World) : World :=
  {| hasKey := hasKey w;
     state := state w;
     remoteCalls := (remoteCalls w ++ sent)%list |}.

(** [{ ...prev, error: e }]. *)
Definition withError (e : option string) (prev : AppState) : AppState :=
  {| poster := poster prev;
     people := people prev;
     isProcessing := isProcessing prev;
     result := result prev;
     error := e |}.

(** [{ ...prev, isProcessing: true, error: null, result: null }]. *)
Definition started (prev : AppState) : AppState :=
  {| poster := poster prev;
     people := people prev;
     isProcessing := true;
     result := None;
     error := None |}.

(** [{ ...prev, result: resultUrl, isProcessing: false }]. *)
Definition succeeded (resultUrl : string) (prev : AppState) : AppState :=
  {| poster := poster prev;
     people := people prev;
     isProcessing := false;
     result := Some resultUrl;
     error := error prev |}.

(** [{ ...prev, isProcessing: false, error: e }]. *)
Definition failed (e : option string) (prev : AppState) : AppState :=
  {| poster := poster prev;
     people := people prev;
     isProcessing := false;
     result := result prev;
     error := e |}.

Definition NEED_KEY_MESSAGE : string :=
  "使用 Pro 模式需要先選取您的 API Key。".

Definition NEED_POSTER_MESSAGE : string := "請上傳一張電影海報。".

Definition NEED_PEOPLE_MESSAGE : string := "請上傳至少一位置換人物。".

Definition INVALID_KEY_MESSAGE : string :=
  "API Key 無效或已過期，請重新選取。".

(** [err.message === "KEY_NOT_FOUND"]. *)
Definition isKeyNotFound (err : JsError) : bool :=
  match message err with
  | Some m => String.eqb m "KEY_NOT_FOUND"
  | None => false
  end.

(** One run of the handler, from the click to the settled promise, taken
    as a single step of the session: what the handler does when no other
    handler runs while it awaits.  Its two phases, for the runs in which
    something does, are [Handlers.handleProcessBegin] and
    [Handlers.handleProcessSettle]. *)
Definition handleProcess (generateContent : Models) (w : World) : World :=
  if negb (hasKey w) then
    setState (withError (Some NEED_KEY_MESSAGE)) w
  else
    match poster (state w) with
    | None => setState (withError (Some NEED_POSTER_MESSAGE)) w
    | Some thePoster =>
        if Nat.eqb (List.length (people (state w))) 0 then
          setState (withError (Some NEED_PEOPLE_MESSAGE)) w
        else
          let w1 := setState started w in
          let '(outcome, sent) :=
            GeminiService.generateSwappedPoster
              generateContent thePoster (people (state w)) in
          let w2 := record sent w1 in
          match outcome with
          | Return resultUrl => setState (succeeded resultUrl) w2
          | Throw err =>
              if isKeyNotFound err then
                setState (failed (Some INVALID_KEY_MESSAGE))
                         (setHasKey false w2)
              else setState (failed (message err)) w2
          end
    end.

End App.


(** ** Notions of the specification *)

Module Spec.
Import Number GeminiService.

(** [c] is the candidate of the fixed list that minimises the distance to
    [ratio] under first-match tie-breaking: it stands somewhere in
    [supported], every candidate before it is strictly farther from
    [ratio], and no candidate after it is strictly nearer. *)
Definition firstClosest (ratio : number) (c : Ratio) : Prop :=
  exists before after : list Ratio,
    supported = (before ++ c :: after)%list
    /\ (forall c', In c' before ->
          ltb (distance ratio c) (distance ratio c') = true)
    /\ (forall c', In c' after ->
          ltb (distance ratio c') (distance ratio c) = false).

(** The selector returns the name of such a candidate. *)
Definition selectsClosest (width height : number) : Prop :=
  exists c : Ratio,
    firstClosest (div width height) c
    /\ getClosestAspectRatio (Some width) (Some height) = name c.

(** The content of the first part that carries a text payload. *)
Fixpoint firstText (ps : list GenAI.Part) : option string :=
  match ps with
  | [] => None
  | p :: rest =>
      match GenAI.text p with
      | Some t => Some t
      | None => firstText rest
      end
  end.

(** "No first candidate, or a first candidate with no content parts", read
    as the words say: the parts are absent, or there are none of them. *)
Definition lacksContentParts (response : GenAI.GenerateContentResponse)
  : Prop :=
  match contentParts (firstCandidate response) with
  | None => True
  | Some ps => ps = []
  end.

(** The promise of the generation that a run of the handler from [w]
    awaits: none when a precondition fails, otherwise what
    [generateSwappedPoster] settles to for the session's poster and people. *)
Definition invocation (generateContent : GenAI.Models) (w : App.World)
  : option (Control.Completion string) :=
  if App.hasKey w then
    match Types.poster (App.state w), Types.people (App.state w) with
    | Some thePoster, (_ :: _) as thePeople =>
        Some (fst (generateSwappedPoster generateContent thePoster thePeople))
    | _, _ => None
    end
  else None.

End Spec.

(** ** Sample data, for the concrete instances below *)

Module Samples.
Import Number Control GenAI Types.

Definition image (file payload : string) (w h : Z) : UploadedImage :=
  {| id := file; url := "data:image/jpeg;base64," ++ payload;
     base64 := payload; mimeType := "image/jpeg"; name := file;
     width := Some (of_Z w); height := Some (of_Z h) |}.

Definition thePoster : UploadedImage := image "poster.jpg" "UE9TVEVS" 1000 1500.
Definition alice : UploadedImage := image "alice.jpg" "QUxJQ0U=" 640 480.
Definition bob : UploadedImage := image "bob.jpg" "Qk9C" 480 640.

(** A response whose only candidate holds the given parts. *)
Definition answer (ps : list Part) (reason : option string)
  : GenerateContentResponse :=
  {| candidates := Some [ {| content := Some {| parts := Some ps |};
                             finishReason := reason |} ] |}.

Definition binary (payload : string) : Part :=
  {| inlineData := Some {| data := payload; GenAI.mimeType := "image/png" |};
     text := None |}.

Definition says (t : string) : Part := {| inlineData := None; text := Some t |}.

(** A remote model that always answers [r], and one that always throws. *)
Definition answering (r : GenerateContentResponse) : Models := fun _ => Return r.
Definition throwing (e : JsError) : Models := fun _ => Throw e.

(** A session ready to generate. *)
Definition readySession : AppState :=
  {| poster := Some thePoster; people := [alice; bob];
     isProcessing := false; result := None; error := None |}.

End Samples.

(** ** [App.tsx]: the other handlers, the two phases of a generation, and
    what is rendered *)

Module Handlers.
Import Control GenAI Types App.

(** The argument of [useState<AppState>], and of [setState] in [resetAll]. *)
Definition initialState : AppState :=
  {| poster := None; people := []; isProcessing := false;
     result := None; error := None |}.

(** The component when it mounts: [useState<boolean>(false)] for the key. *)
Definition initialWorld : World :=
  {| hasKey := false; state := initialState; remoteCalls := [] |}.

(** [window.aistudio.hasSelectedApiKey()], awaited inside a [try]. *)
Definition checkApiKeyStatus (hasSelectedApiKey : Completion bool) (w : World)
  : World :=
  match hasSelectedApiKey with
  | Return selected => setHasKey selected w
  | Throw _ => w
  end.

(** [window.aistudio.openSelectKey()], awaited; when it rejects the handler
    stops before [setHasKey]. *)
Definition handleOpenKeyDialog (openSelectKey : Completion unit) (w : World)
  : World :=
  match openSelectKey with
  | Return _ => setHasKey true w
  | Throw _ => w
  end.

Definition handlePosterUpload (image : UploadedImage) (w : World) : World :=
  setState (fun prev =>
              {| poster := Some image;
                 people := people prev;
                 isProcessing := isProcessing prev;
                 result := result prev;
                 error := None |}) w.

Definition handlePersonUpload (image : UploadedImage) (w : World) : World :=
  setState (fun prev =>
              {| poster := poster prev;
                 people := (people prev ++ [image])%list;
                 isProcessing := isProcessing prev;
                 result := result prev;
                 error := None |}) w.

Definition handleRemovePoster (w : World) : World :=
  setState (fun prev =>
              {| poster := None;
                 people := people prev;
                 isProcessing := isProcessing prev;
                 result := result prev;
                 error := error prev |}) w.

(** [p => p.id !== id]. *)
Definition otherThan (id : string) (p : UploadedImage) : bool :=
  negb (String.eqb (Types.id p) id).

Definition handleRemovePerson (id : string) (w : World) : World :=
  setState (fun prev =>
              {| poster := poster prev;
                 people := filter (otherThan id) (people prev);
                 isProcessing := isProcessing prev;
                 result := result prev;
                 error := error prev |}) w.

Definition resetAll (w : World) : World := setState (fun _ => initialState) w.

(** [handleProcess] up to its [await]: the guards, the processing flag, and
    the call of [generateSwappedPoster], whose request leaves before the
    promise is awaited.  The second component is the pending promise. *)
Definition handleProcessBegin (generateContent : Models) (w : World)
  : World * option (Completion string) :=
  if negb (hasKey w) then
    (setState (withError (Some NEED_KEY_MESSAGE)) w, None)
  else
    match poster (state w) with
    | None => (setState (withError (Some NEED_POSTER_MESSAGE)) w, None)
    | Some thePoster =>
        if Nat.eqb (List.length (people (state w))) 0 then
          (setState (withError (Some NEED_PEOPLE_MESSAGE)) w, None)
        else
          let w1 := setState started w in
          let '(outcome, sent) :=
            GeminiService.generateSwappedPoster
              generateContent thePoster (people (state w)) in
          (record sent w1, Some outcome)
    end.

(** [handleProcess] after its [await]: the promise has settled, and the
    updaters run on the state of that moment. *)
Definition handleProcessSettle (outcome : Completion string) (w : World)
  : World :=
  match outcome with
  | Return resultUrl => setState (succeeded resultUrl) w
  | Throw err =>
      if isKeyNotFound err then
        setState (failed (Some INVALID_KEY_MESSAGE)) (setHasKey false w)
      else setState (failed (message err)) w
  end.

(** What the user can do between the two phases. *)
Inductive Action : Type :=
| PosterUpload (image : UploadedImage)
| PersonUpload (image : UploadedImage)
| RemovePoster
| RemovePerson (id : string)
| ResetAll
| OpenKeyDialog (openSelectKey : Completion unit).

Definition act (w : World) (a : Action) : World :=
  match a with
  | PosterUpload image => handlePosterUpload image w
  | PersonUpload image => handlePersonUpload image w
  | RemovePoster => handleRemovePoster w
  | RemovePerson id => handleRemovePerson id w
  | ResetAll => resetAll w
  | OpenKeyDialog openSelectKey => handleOpenKeyDialog openSelectKey w
  end.

Definition isReset (a : Action) : bool :=
  match a with
  | ResetAll => true
  | _ => false
  end.

(** The [disabled] attribute of the generation button. *)
Definition generateDisabled (w : World) : bool :=
  isProcessing (state w)
  || match poster (state w) with Some _ => false | None => true end
  || Nat.eqb (List.length (people (state w))) 0
  || negb (hasKey w).

(** The result panel: [state.result ? image : state.isProcessing ? spinner
    : placeholder]. *)
Inductive Panel : Type :=
| ResultImage (src : string)
| Spinner
| Placeholder.

Definition resultPanel (s : AppState) : Panel :=
  match result s with
  | Some src =>
      if JSString.truthy src then ResultImage src
      else if isProcessing s then Spinner else Placeholder
  | None => if isProcessing s then Spinner else Placeholder
  end.

(** [state.error && <div>...{state.error}</div>]. *)
Definition errorBanner (s : AppState) : option string :=
  match error s with
  | Some e => if JSString.truthy e then Some e else None
  | None => None
  end.

End Handlers.

(** ** [components/ImageInput.tsx] *)

Module ImageInput.
Import Number Types.

(** A selected file, as far as the component reads it: [file.name] and
    [file.type]. *)
Record File : Type := { fileName : string; fileType : string }.

(** The loop of [handleFileChange] from index [i] on: the files for which
    a reader is started.  [shown] is [images.length]. *)
Fixpoint readFrom (multiple : bool) (maxFiles : Z) (shown i : nat)
    (files : list File) : list File :=
  match files with
  | [] => []
  | file :: rest =>
      if multiple && (Z.of_nat (shown + i) >=? maxFiles)%Z then []
      else file :: (if negb multiple then []
                    else readFrom multiple maxFiles shown (S i) rest)
  end.

(** [e.target.files] is [null] when nothing was selected. *)
Definition handleFileChange (multiple : bool) (maxFiles : Z)
    (images : list UploadedImage) (files : option (list File)) : list File :=
  match files with
  | None => []
  | Some fs => readFrom multiple maxFiles (List.length images) 0 fs
  end.

(** The condition under which the upload tile is rendered. *)
Definition uploadOffered (multiple : bool) (maxFiles : Z)
    (images : list UploadedImage) : bool :=
  if multiple then (Z.of_nat (List.length images) <? maxFiles)%Z
  else Nat.eqb (List.length images) 0.

(** [s.split(sep)] for a separator of one character. *)
Fixpoint split (sep : ascii) (s : string) : list string :=
  match s with
  | EmptyString => [EmptyString]
  | String c rest =>
      if Ascii.eqb c sep then EmptyString :: split sep rest
      else match split sep rest with
           | [] => [String c EmptyString]
           | piece :: pieces => String c piece :: pieces
           end
  end.

(** [sep] does not occur in [s]. *)
Fixpoint free (sep : ascii) (s : string) : bool :=
  match s with
  | EmptyString => true
  | String c rest => negb (Ascii.eqb c sep) && free sep rest
  end.

(** [dataUrl.split(',')[1]], [None] for [undefined]. *)
Definition base64Of (dataUrl : string) : option string :=
  nth_error (split "," dataUrl) 1.

(** The object handed to [onUpload] once the file is read as [dataUrl] and
    decoded to [imgWidth] x [imgHeight] pixels; [randomId] stands for
    [Math.random().toString(36).substr(2, 9)].  There is no such object of
    the declared type when the split leaves [base64] undefined. *)
Definition uploaded (randomId : string) (file : File) (dataUrl : string)
    (imgWidth imgHeight : nat) : option UploadedImage :=
  match base64Of dataUrl with
  | Some payload =>
      Some {| id := randomId;
              url := dataUrl;
              base64 := payload;
              mimeType := fileType file;
              name := fileName file;
              width := Some (of_Z (Z.of_nat imgWidth));
              height := Some (of_Z (Z.of_nat imgHeight)) |}
  | None => None
  end.

End ImageInput.

(** ** Sessions as sequences of events *)

Module Trace.
Import Control GenAI Types App Handlers.

(** What happens to the component: the key check of the mount effect, a
    user action, or a click on the generation button, run to the settled
    promise against the remote behaviour of that moment, nothing else
    happening while it awaits.  Generations in flight are the matter of
    [Interleaved]. *)
Inductive Event : Type :=
| KeyCheck (hasSelectedApiKey : Completion bool)
| User (a : Action)
| Click (generateContent : Models).

Definition step (w : World) (e : Event) : World :=
  match e with
  | KeyCheck hasSelectedApiKey => checkApiKeyStatus hasSelectedApiKey w
  | User a => act w a
  | Click generateContent => handleProcess generateContent w
  end.

Definition run (events : list Event) : World :=
  fold_left step events initialWorld.

(** The events after which a key counts as selected. *)
Definition grantsKey (e : Event) : bool :=
  match e with
  | KeyCheck (Return true) => true
  | User (OpenKeyDialog (Return _)) => true
  | _ => false
  end.

(** A request for some poster and at least one person. *)
Definition complete (r : GenerateContentParameters) : Prop :=
  exists p thePeople,
    thePeople <> [] /\ r = GeminiService.request p thePeople.

(** The result is empty or a PNG data reference, and the error is empty
    or a message that is not the empty string. *)
Definition displayable (s : AppState) : Prop :=
  (result s = None
   \/ exists d, result s = Some (GeminiService.PNG_PREFIX ++ d))
  /\ (error s = None \/ exists m, error s = Some m /\ m <> EmptyString).

End Trace.

(** ** Sessions with generations in flight *)

Module Interleaved.
Import Control GenAI Types App Handlers.

(** The component together with the promises of [generateSwappedPoster]
    that have been awaited and have not settled yet. *)
Record Session : Type := {
  world : World;
  pending : list (Completion string)
}.

(** What happens to the component: the key check of the mount effect, a
    user action, a click on the generation button (the handler runs up to
    its [await]), or the settling of the pending promise number [k] (the
    handler that awaits it resumes). *)
Inductive Event : Type :=
| KeyCheck (hasSelectedApiKey : Completion bool)
| User (a : Action)
| Click (generateContent : Models)
| Settle (k : nat).

Definition without {A : Type} (k : nat) (l : list A) : list A :=
  (firstn k l ++ skipn (S k) l)%list.

Definition step (s : Session) (e : Event) : Session :=
  match e with
  | KeyCheck hasSelectedApiKey =>
      {| world := checkApiKeyStatus hasSelectedApiKey (world s);
         pending := pending s |}
  | User a => {| world := act (world s) a; pending := pending s |}
  | Click generateContent =>
      let '(w1, promise) := handleProcessBegin generateContent (world s) in
      {| world := w1;
         pending := (pending s
                       ++ match promise with
                          | Some outcome => [outcome]
                          | None => []
                          end)%list |}
  | Settle k =>
      match nth_error (pending s) k with
      | Some outcome =>
          {| world := handleProcessSettle outcome (world s);
             pending := without k (pending s) |}
      | None => s
      end
  end.

Definition run (events : list Event) : Session :=
  fold_left step events {| world := initialWorld; pending := [] |}.

(** The two ways in which a promise of [generateSwappedPoster] settles. *)
Definition adapterOutcome (outcome : Completion string) : Prop :=
  (exists d, outcome = Return (GeminiService.PNG_PREFIX ++ d))
  \/ (exists m, outcome = Throw (Error m) /\ m <> EmptyString).

End Interleaved.


(** * Properties *)

(** ** Numbers: rounding never invents a NaN, and [<] orders distances *)

Module NumberFacts.
Import Number.

Lemma shr_1_nonneg (mrs : shr_record) :
  (0 <= shr_m mrs)%Z -> (0 <= shr_m (shr_1 mrs))%Z.
Proof.
  destruct mrs as [m r s]; destruct m as [|p|p]; simpl; try lia;
    destruct p; simpl; lia.
Qed.

Lemma iter_shr_1_nonneg (p : positive) :
  forall mrs, (0 <= shr_m mrs)%Z -> (0 <= shr_m (iter_pos shr_1 p mrs))%Z.
Proof.
  induction p as [p IH|p IH|]; simpl; intros mrs H.
  - apply IH, IH, shr_1_nonneg, H.
  - apply IH, IH, H.
  - apply shr_1_nonneg, H.
Qed.

Lemma shr_record_of_loc_m (m : Z) (l : location) :
  shr_m (shr_record_of_loc m l) = m.
Proof. destruct l as [|[| |]]; reflexivity. Qed.

Lemma shr_fexp_nonneg (m e : Z) (l : location) :
  (0 <= m)%Z -> (0 <= shr_m (fst (shr_fexp prec emax m e l)))%Z.
Proof.
  intros H. unfold shr_fexp, shr.
  destruct (fexp prec emax (Zdigits2 m + e) - e)%Z as [|p|p]; simpl;
    rewrite ?shr_record_of_loc_m; try assumption.
  apply iter_shr_1_nonneg. now rewrite shr_record_of_loc_m.
Qed.

Lemma round_nearest_even_nonneg (m : Z) (l : location) :
  (0 <= m)%Z -> (0 <= round_nearest_even m l)%Z.
Proof.
  intros H. destruct l as [|[| |]]; simpl; try lia.
  destruct (Z.even m); lia.
Qed.

Lemma binary_round_aux_not_nan (sx : bool) (mx ex : Z) (lx : location) :
  (0 <= mx)%Z -> is_nan (binary_round_aux prec emax sx mx ex lx) = false.
Proof.
  intros H. unfold binary_round_aux.
  pose proof (shr_fexp_nonneg mx ex lx H) as H1.
  destruct (shr_fexp prec emax mx ex lx) as [mrs' e']. simpl in H1.
  pose proof (shr_fexp_nonneg _ e' loc_Exact
                (round_nearest_even_nonneg _ (loc_of_shr_record mrs') H1)) as H2.
  destruct (shr_fexp prec emax _ e' loc_Exact) as [mrs'' e'']. simpl in H2.
  destruct (shr_m mrs'') as [|m|m]; try reflexivity.
  - destruct (e'' <=? emax - prec)%Z; reflexivity.
  - lia.
Qed.

Lemma binary_normalize_not_nan (m e : Z) (szero : bool) :
  is_nan (binary_normalize prec emax m e szero) = false.
Proof.
  destruct m as [|p|p]; simpl; try reflexivity; unfold binary_round;
    destruct (shl_align _ _ _) as [mz ez];
    apply binary_round_aux_not_nan; lia.
Qed.

(** Subtracting from a finite number yields a NaN only from a NaN. *)
Lemma sub_finite_not_nan (s : bool) (m : positive) (e : Z) (r : number) :
  is_nan r = false -> is_nan (sub (S754_finite s m e) r) = false.
Proof.
  destruct r as [sr|sr| |sr mr er]; simpl; intros H; try reflexivity;
    try discriminate.
  apply binary_normalize_not_nan.
Qed.

Lemma sub_nan (x r : number) : is_nan r = true -> sub x r = S754_nan.
Proof. destruct r; try discriminate. now destruct x. Qed.

Lemma abs_nonneg (x : number) : is_nan x = false -> nonneg (abs x) = true.
Proof. destruct x; simpl; congruence. Qed.

(** On non-negative numbers [<] is the lexicographic order of the keys. *)
Lemma ltb_lex (x y : number) :
  nonneg x = true -> nonneg y = true ->
  (ltb x y = true <-> lex_lt (key x) (key y)).
Proof.
  unfold ltb, SFltb.
  destruct x as [[]|[]| |[] mx ex], y as [[]|[]| |[] my ey]; simpl;
    try discriminate; intros _ _;
    try (split; [discriminate | lia]);
    try (split; [lia | reflexivity]).
  destruct (Z.compare_spec ex ey) as [E|E|E].
  - subst. change (Pos.compare_cont Eq mx my) with (Pos.compare mx my).
    destruct (Pos.compare_spec mx my) as [M|M|M]; split;
      try discriminate; try reflexivity; lia.
  - split; [lia | reflexivity].
  - split; [discriminate | lia].
Qed.

Lemma lex_lt_trans (a b c : Z * Z * Z) :
  lex_lt a b -> lex_lt b c -> lex_lt a c.
Proof.
  destruct a as [[a1 a2] a3], b as [[b1 b2] b3], c as [[c1 c2] c3].
  unfold lex_lt. lia.
Qed.

Lemma lex_lt_split (a b c : Z * Z * Z) :
  lex_lt a c -> lex_lt a b \/ lex_lt b c.
Proof.
  destruct a as [[a1 a2] a3], b as [[b1 b2] b3], c as [[c1 c2] c3].
  unfold lex_lt. lia.
Qed.

End NumberFacts.

(** ** A left fold that keeps the strictly smaller element *)

Section FirstMinimum.
Context {A : Type}.
Variable lt : A -> A -> bool.
Variable l : list A.

Hypothesis lt_trans : forall a b c, In a l -> In b l -> In c l ->
  lt a b = true -> lt b c = true -> lt a c = true.
Hypothesis lt_split : forall a b c, In a l -> In b l -> In c l ->
  lt a c = true -> lt a b = true \/ lt b c = true.

Let keep (prev curr : A) : A := if lt curr prev then curr else prev.

(** The invariant of the fold: [best] beats strictly what came before it
    and is not beaten by what came after. *)
Let leads (before : list A) (best : A) (after : list A) : Prop :=
  (forall c, In c before -> lt best c = true)
  /\ (forall c, In c after -> lt c best = false).

Lemma fold_keep_leads (todo : list A) :
  forall before best after,
    l = (before ++ best :: after ++ todo)%list ->
    leads before best after ->
    exists before' after',
      l = (before' ++ fold_left keep todo best :: after')%list
      /\ leads before' (fold_left keep todo best) after'.
Proof.
  induction todo as [|y todo IH]; intros before best after Hl [Hb Ha].
  - exists before, after. rewrite app_nil_r in Hl. simpl. now split.
  - assert (Hin : forall c, In c (before ++ best :: after ++ [y])%list -> In c l).
    { intros c Hc. rewrite Hl.
      rewrite in_app_iff in Hc. simpl in Hc. rewrite in_app_iff in Hc. simpl in Hc.
      rewrite in_app_iff. simpl. rewrite in_app_iff. simpl. tauto. }
    assert (Hbest : In best l) by (apply Hin, in_elt).
    assert (Hy : In y l).
    { apply Hin. rewrite in_app_iff. right. right.
      rewrite in_app_iff. right. now left. }
    simpl. assert (K : keep best y = if lt y best then y else best) by reflexivity.
    rewrite K. clear K. destruct (lt y best) eqn:E.
    + apply (IH (before ++ best :: after)%list y []).
      * rewrite Hl. now rewrite <- app_assoc.
      * split; [|intros c []].
        intros c Hc. apply in_app_or in Hc. destruct Hc as [Hc|[Hc|Hc]].
        -- apply (lt_trans y best c); auto.
           apply Hin. rewrite in_app_iff. now left.
        -- now subst c.
        -- assert (Hcl : In c l).
           { apply Hin. rewrite in_app_iff. right. right.
             rewrite in_app_iff. now left. }
           destruct (lt_split y c best Hy Hcl Hbest E) as [H|H]; [exact H|].
           rewrite (Ha c Hc) in H. discriminate.
    + apply (IH before best (after ++ [y])%list).
      * rewrite Hl. now rewrite <- app_assoc.
      * split; [exact Hb|].
        intros c Hc. apply in_app_or in Hc. destruct Hc as [Hc|[Hc|[]]].
        -- now apply Ha.
        -- now subst c.
Qed.

End FirstMinimum.

(** ** Aspect-ratio selection *)

Module AspectRatioFacts.
Import Number GeminiService Spec NumberFacts.

Lemma supported_finite (c : Ratio) :
  In c supported -> exists s m e, value c = S754_finite s m e.
Proof.
  intros H. repeat (destruct H as [H|H]; [subst c; vm_compute; eauto|]).
  destruct H.
Qed.

Lemma distance_nan (ratio : number) (c : Ratio) :
  is_nan ratio = true -> distance ratio c = S754_nan.
Proof. intros H. unfold distance. now rewrite sub_nan. Qed.

Lemma distance_nonneg (ratio : number) (c : Ratio) :
  is_nan ratio = false -> In c supported -> nonneg (distance ratio c) = true.
Proof.
  intros Hr Hc. destruct (supported_finite c Hc) as (s & m & e & Hv).
  unfold distance. rewrite Hv. apply abs_nonneg, sub_finite_not_nan, Hr.
Qed.

(** Whatever the ratio, comparing the distances of the candidates is
    transitive ... *)
Lemma closer_trans (ratio : number) (a b c : Ratio) :
  In a supported -> In b supported -> In c supported ->
  ltb (distance ratio a) (distance ratio b) = true ->
  ltb (distance ratio b) (distance ratio c) = true ->
  ltb (distance ratio a) (distance ratio c) = true.
Proof.
  intros Ha Hb Hc. destruct (is_nan ratio) eqn:N.
  - rewrite (distance_nan ratio a N). discriminate.
  - rewrite !ltb_lex by (apply distance_nonneg; assumption).
    apply lex_lt_trans.
Qed.

(** ... and a candidate strictly nearer than another is strictly nearer
    than any third one, or that one is strictly nearer than the other. *)
Lemma closer_split (ratio : number) (a b c : Ratio) :
  In a supported -> In b supported -> In c supported ->
  ltb (distance ratio a) (distance ratio c) = true ->
  ltb (distance ratio a) (distance ratio b) = true
  \/ ltb (distance ratio b) (distance ratio c) = true.
Proof.
  intros Ha Hb Hc. destruct (is_nan ratio) eqn:N.
  - rewrite (distance_nan ratio a N). discriminate.
  - rewrite !ltb_lex by (apply distance_nonneg; assumption).
    apply lex_lt_split.
Qed.

(** The [reduce] over [supported] succeeds and returns the first closest
    candidate, for every ratio (a NaN included: then no distance is
    smaller than another and the first candidate is kept). *)
Lemma reduce_closer_firstClosest (ratio : number) :
  exists c, reduce (closer ratio) supported = Some c /\ firstClosest ratio c.
Proof.
  pose (lt := fun a b : Ratio => ltb (distance ratio a) (distance ratio b)).
  assert (T : forall a b c, In a supported -> In b supported -> In c supported ->
                lt a b = true -> lt b c = true -> lt a c = true)
    by (intros a b c; apply closer_trans).
  assert (S : forall a b c, In a supported -> In b supported -> In c supported ->
                lt a c = true -> lt a b = true \/ lt b c = true)
    by (intros a b c; apply closer_split).
  destruct supported as [|c0 rest] eqn:E; [discriminate|].
  destruct (fold_keep_leads lt (c0 :: rest) T S rest [] c0 [] eq_refl)
    as (before & after & Hl & Hb & Ha).
  - split; intros c [].
  - exists (fold_left (closer ratio) rest c0). split; [reflexivity|].
    exists before, after. split; [rewrite E; exact Hl|]. split; [exact Hb|exact Ha].
Qed.

Lemma positive_truthy (h : number) : ltb zero h = true -> truthy h = true.
Proof. destruct h as [s|s| |s m e]; try reflexivity; discriminate. Qed.

(** C1, as amended: for a width that is present and truthy (neither zero
    nor NaN) and a height that is present and greater than zero, the
    selector returns one of the five fixed candidates, namely the first one
    in the fixed order 9:16, 3:4, 1:1, 4:3, 16:9 whose distance
    [|candidate - width/height|], computed in binary64 arithmetic as the
    code does, is minimal: every earlier candidate is strictly farther
    and no later candidate is strictly nearer. *)
Theorem getClosestAspectRatio_closest (width height : number) :
  truthy width = true -> ltb zero height = true ->
  selectsClosest width height.
Proof.
  intros Hw Hh. apply positive_truthy in Hh.
  destruct (reduce_closer_firstClosest (div width height)) as (c & Hr & Hc).
  exists c. split; [exact Hc|].
  unfold getClosestAspectRatio, falsy. rewrite Hw, Hh. simpl orb. cbv iota.
  now rewrite Hr.
Qed.

Lemma getClosestAspectRatio_closest_witness :
  truthy (of_Z 7) = true /\ ltb zero (of_Z 6) = true
  /\ selectsClosest (of_Z 7) (of_Z 6).
Proof.
  split; [reflexivity|]. split; [reflexivity|].
  apply (getClosestAspectRatio_closest (of_Z 7) (of_Z 6)); reflexivity.
Defined.

(** C1, as stated, fails at width 0 and height 1: both are present and the
    height is positive, the nearest candidate to the ratio 0 is 9:16, and
    the guard [!width] makes the selector answer the default 3:4. *)
Lemma getClosestAspectRatio_zero_width :
  ~ (forall width height : number,
       ltb zero height = true -> selectsClosest width height).
Proof.
  intros H. destruct (H (of_Z 0) (of_Z 1) eq_refl) as (c & Hc & Hn).
  destruct Hc as (before & after & Hl & Hb & _).
  vm_compute in Hn.
  destruct before as [|b0 before].
  - injection Hl as Hc _. subst c. discriminate Hn.
  - injection Hl as Hb0 Hl. destruct before as [|b1 before].
    + specialize (Hb b0 (or_introl eq_refl)).
      injection Hl as Hc _. subst c b0. vm_compute in Hb. discriminate Hb.
    + injection Hl as _ Hl.
      repeat (destruct before as [|? before];
              [injection Hl as Hc _; subst c; discriminate Hn
              |injection Hl as _ Hl]).
      destruct before; discriminate Hl.
Qed.

(** Scenario A of the specification: a 1000 x 1500 poster is sent as 3:4. *)
Example getClosestAspectRatio_1000_1500 :
  getClosestAspectRatio (Some (of_Z 1000)) (Some (of_Z 1500)) = "3:4".
Proof. reflexivity. Qed.

(** An exact tie keeps the earlier candidate: 21/32 lies midway between
    9/16 and 3/4. *)
Example getClosestAspectRatio_21_32 :
  getClosestAspectRatio (Some (of_Z 21)) (Some (of_Z 32)) = "9:16".
Proof. reflexivity. Qed.

(** Distances are the rounded ones.  As real numbers 7/6 is as far from 1
    as from 4/3, which would keep 1:1; the binary64 quotient 7/6 is rounded
    up and 4/3 is rounded down, so the computed distance to 4/3 is the
    strictly smaller one and the selector answers 4:3. *)
Example getClosestAspectRatio_7_6 :
  getClosestAspectRatio (Some (of_Z 7)) (Some (of_Z 6)) = "4:3"
  /\ QArith_base.Qeq
       (Qabs.Qabs (QArith_base.Qminus (QArith_base.Qmake 1 1)
                                      (QArith_base.Qmake 7 6)))
       (Qabs.Qabs (QArith_base.Qminus (QArith_base.Qmake 4 3)
                                      (QArith_base.Qmake 7 6))).
Proof. split; reflexivity. Qed.

(** C9: when the width or the height is absent the selector returns the
    default ratio 3:4. *)
Theorem getClosestAspectRatio_absent :
  (forall height, getClosestAspectRatio None height = "3:4")
  /\ (forall width, getClosestAspectRatio width None = "3:4").
Proof.
  split; [reflexivity|].
  intros width. unfold getClosestAspectRatio.
  now rewrite orb_true_r.
Qed.

End AspectRatioFacts.

(** ** Strings *)

Module JSStringFacts.
Import JSString.

(** A needle found in [s] is found in [pre ++ s]. *)
Lemma includes_app_r (pre s sub : string) :
  includes s sub = true -> includes (pre ++ s) sub = true.
Proof.
  intros H. induction pre as [|a pre IH]; [exact H|].
  change (String a pre ++ s) with (String a (pre ++ s)). cbn [includes].
  now destruct (prefix sub (String a (pre ++ s))).
Qed.

Lemma truthy_nonempty (s : string) : truthy s = true <-> s <> "".
Proof. destruct s; simpl; split; congruence. Qed.

Lemma includes_truthy (s sub : string) :
  truthy sub = true -> includes s sub = true -> truthy s = true.
Proof. destruct s, sub; simpl; congruence. Qed.

End JSStringFacts.

(** ** Response resolution and failure translation *)

Module GeminiServiceFacts.
Import Control GenAI GeminiService JSString JSStringFacts.

(** The feedback prefix shares no byte with the start of the signature, so
    the signature occurs in a prefixed text only inside the text. *)
Lemma includes_feedback (t : string) :
  includes (TEXT_FEEDBACK_PREFIX ++ t) ENTITY_NOT_FOUND
  = includes t ENTITY_NOT_FOUND.
Proof. reflexivity. Qed.

(** The loop stops at the first part that has [inlineData]. *)
Lemma firstInlineData_first (before after : list Part) (part : Part) (blob : Blob) :
  Forall (fun p => inlineData p = None) before ->
  inlineData part = Some blob ->
  firstInlineData (before ++ part :: after)%list = Some blob.
Proof.
  intros Hb Hp. induction Hb as [|p before Hp0 _ IH]; simpl.
  - now rewrite Hp.
  - now rewrite Hp0.
Qed.

Lemma firstInlineData_none (ps : list Part) :
  Forall (fun p => inlineData p = None) ps -> firstInlineData ps = None.
Proof.
  intros H. induction H as [|p ps Hp _ IH]; simpl; [reflexivity|].
  now rewrite Hp.
Qed.

Lemma firstInlineData_exists (ps : list Part) :
  Exists (fun p => inlineData p <> None) ps ->
  exists before part after blob,
    ps = (before ++ part :: after)%list
    /\ Forall (fun p => inlineData p = None) before
    /\ inlineData part = Some blob.
Proof.
  induction ps as [|p ps IH]; intros H; [inversion H|].
  destruct (inlineData p) as [blob|] eqn:E.
  - exists [], p, ps, blob. auto.
  - inversion H as [? ? Hp|? ? Hps]; subst; [congruence|].
    destruct (IH Hps) as (before & part & after & blob & -> & Hb & Hp).
    exists (p :: before), part, after, blob. auto.
Qed.

(** [find] returns the first part whose text is truthy. *)
Lemma find_hasText_first (before after : list Part) (part : Part) :
  Forall (fun p => hasText p = false) before ->
  hasText part = true ->
  find hasText (before ++ part :: after)%list = Some part.
Proof.
  intros Hb Hp. induction Hb as [|p before Hp0 _ IH]; simpl.
  - now rewrite Hp.
  - now rewrite Hp0.
Qed.

(** The guard of the resolution: no first candidate, or a first candidate
    without content, or a content without parts. *)
Lemma contentParts_none (response : GenerateContentResponse) :
  contentParts (firstCandidate response) = None
  <-> firstCandidate response = None
      \/ exists c, firstCandidate response = Some c
                   /\ (content c = None
                       \/ exists ct, content c = Some ct /\ parts ct = None).
Proof.
  unfold contentParts. destruct (firstCandidate response) as [c|]; [|tauto].
  split.
  - intros H. right. exists c. split; [reflexivity|].
    destruct (content c) as [ct|]; [right; now exists ct | now left].
  - intros [H|(c' & Hc & [H|(ct & Hct & H)])]; try discriminate;
      injection Hc as <-; now rewrite ?H, ?Hct.
Qed.

Lemma settle_answer (generateContent : Models)
    (poster : Types.UploadedImage) (people : list Types.UploadedImage)
    (response : GenerateContentResponse) :
  generateContent (request poster people) = Return response ->
  fst (generateSwappedPoster generateContent poster people)
  = tryCatch (resolveResponse response) translateFailure.
Proof. intros H. unfold generateSwappedPoster, settle. simpl. now rewrite H. Qed.

(** C2: when the first candidate has content parts of which at least one
    carries an inline binary payload, the promise is fulfilled with the
    PNG data-reference prefix followed by the payload of the first such
    part; the parts after it, binary or text, play no role. *)
Theorem generateSwappedPoster_first_binary (generateContent : Models)
    (poster : Types.UploadedImage) (people : list Types.UploadedImage)
    (response : GenerateContentResponse) (ps : list Part) :
  generateContent (request poster people) = Return response ->
  contentParts (firstCandidate response) = Some ps ->
  Exists (fun p => inlineData p <> None) ps ->
  exists before part after blob,
    ps = (before ++ part :: after)%list
    /\ Forall (fun p => inlineData p = None) before
    /\ inlineData part = Some blob
    /\ fst (generateSwappedPoster generateContent poster people)
       = Return ("data:image/png;base64," ++ data blob).
Proof.
  intros Hcall Hps Hex.
  destruct (firstInlineData_exists ps Hex)
    as (before & part & after & blob & -> & Hb & Hp).
  exists before, part, after, blob. repeat split; try assumption.
  rewrite (settle_answer _ _ _ _ Hcall). unfold resolveResponse.
  rewrite Hps, (firstInlineData_first before after part blob Hb Hp).
  reflexivity.
Qed.

Lemma generateSwappedPoster_first_binary_witness :
  exists before part after blob,
    [Samples.says "Here it is"; Samples.binary "WFla"; Samples.binary "QUJD"]
    = (before ++ part :: after)%list
    /\ Forall (fun p => inlineData p = None) before
    /\ inlineData part = Some blob
    /\ fst (generateSwappedPoster
              (Samples.answering
                 (Samples.answer
                    [Samples.says "Here it is"; Samples.binary "WFla";
                     Samples.binary "QUJD"] None))
              Samples.thePoster [Samples.alice])
       = Return ("data:image/png;base64," ++ data blob).
Proof.
  apply (generateSwappedPoster_first_binary
           (Samples.answering
              (Samples.answer
                 [Samples.says "Here it is"; Samples.binary "WFla";
                  Samples.binary "QUJD"] None))
           Samples.thePoster [Samples.alice] _ _ eq_refl eq_refl).
  apply Exists_cons_tl, Exists_cons_hd. discriminate.
Defined.

(** Scenario A of the specification: a sole binary part "XYZ". *)
Example generateSwappedPoster_XYZ :
  fst (generateSwappedPoster
         (Samples.answering (Samples.answer [Samples.binary "XYZ"] None))
         Samples.thePoster [Samples.alice; Samples.bob])
  = Return "data:image/png;base64,XYZ".
Proof. reflexivity. Qed.

(** C3, as amended: when there is no first candidate, or the first
    candidate has no content or a content without a parts array, the
    promise is rejected: with the safety message when the candidate's
    finish reason is SAFETY, and with the empty-result message in every
    other case, the absence of a candidate included. *)
Theorem generateSwappedPoster_empty (generateContent : Models)
    (poster : Types.UploadedImage) (people : list Types.UploadedImage)
    (response : GenerateContentResponse) :
  generateContent (request poster people) = Return response ->
  contentParts (firstCandidate response) = None ->
  let outcome := fst (generateSwappedPoster generateContent poster people) in
  ((exists c, firstCandidate response = Some c
              /\ finishReason c = Some "SAFETY") ->
   outcome = Throw (Error SAFETY_MESSAGE))
  /\ (~ (exists c, firstCandidate response = Some c
                   /\ finishReason c = Some "SAFETY") ->
      outcome = Throw (Error GENERATION_EMPTY_MESSAGE))
  /\ (firstCandidate response = None ->
      outcome = Throw (Error GENERATION_EMPTY_MESSAGE))
  /\ SAFETY_MESSAGE <> GENERATION_EMPTY_MESSAGE.
Proof.
  intros Hcall Hps outcome. subst outcome.
  rewrite (settle_answer _ _ _ _ Hcall). unfold resolveResponse. rewrite Hps.
  assert (Hempty : ~ (exists c, firstCandidate response = Some c
                                /\ finishReason c = Some "SAFETY") ->
                   finishedForSafety (firstCandidate response) = false).
  { intros Hn. unfold finishedForSafety.
    destruct (firstCandidate response) as [c|]; [|reflexivity].
    destruct (finishReason c) as [r|] eqn:Er; [|reflexivity].
    destruct (String.eqb_spec r "SAFETY") as [->|]; [|reflexivity].
    exfalso. apply Hn. now exists c. }
  repeat split.
  - intros (c & Hc & Hr). unfold finishedForSafety. rewrite Hc, Hr. reflexivity.
  - intros Hn. rewrite (Hempty Hn). reflexivity.
  - intros Hnone. rewrite Hempty; [reflexivity|].
    intros (c & Hc & _). congruence.
  - discriminate.
Qed.

Lemma generateSwappedPoster_empty_witness :
  fst (generateSwappedPoster
         (Samples.answering
            {| candidates := Some [ {| content := None;
                                       finishReason := Some "SAFETY" |} ] |})
         Samples.thePoster [Samples.alice])
  = Throw (Error SAFETY_MESSAGE).
Proof.
  apply (generateSwappedPoster_empty
           (Samples.answering
              {| candidates := Some [ {| content := None;
                                         finishReason := Some "SAFETY" |} ] |})
           Samples.thePoster [Samples.alice] _ eq_refl eq_refl).
  eexists. split; reflexivity.
Defined.

(** C3, as stated, fails for a first candidate whose parts array is
    present but empty: an empty array is truthy, the guard lets it pass,
    and with the finish reason SAFETY the promise is rejected with the
    could-not-obtain-the-image message, not with the safety message. *)
Lemma generateSwappedPoster_empty_array_safety :
  ~ (forall (generateContent : Models)
            (poster : Types.UploadedImage) (people : list Types.UploadedImage)
            (response : GenerateContentResponse),
       generateContent (request poster people) = Return response ->
       Spec.lacksContentParts response ->
       (exists c, firstCandidate response = Some c
                  /\ finishReason c = Some "SAFETY") ->
       fst (generateSwappedPoster generateContent poster people)
       = Throw (Error SAFETY_MESSAGE)).
Proof.
  intros H.
  assert (E : fst (generateSwappedPoster
                     (Samples.answering (Samples.answer [] (Some "SAFETY")))
                     Samples.thePoster [Samples.alice])
              = Throw (Error GENERATION_FAILED_MESSAGE)) by reflexivity.
  rewrite (H (Samples.answering (Samples.answer [] (Some "SAFETY")))
             Samples.thePoster [Samples.alice] _ eq_refl eq_refl) in E.
  - discriminate E.
  - eexists. split; reflexivity.
Qed.

(** What the [try] block throws when no part is binary and [part] is the
    first part with a truthy text. *)
Lemma resolveResponse_text (response : GenerateContentResponse)
    (before after : list Part) (part : Part) (t : string) :
  contentParts (firstCandidate response) = Some (before ++ part :: after)%list ->
  Forall (fun p => inlineData p = None) (before ++ part :: after)%list ->
  Forall (fun p => hasText p = false) before ->
  text part = Some t ->
  truthy t = true ->
  resolveResponse response = Throw (Error (TEXT_FEEDBACK_PREFIX ++ t)).
Proof.
  intros Hps Hnone Hb Ht Htruthy. unfold resolveResponse.
  rewrite Hps, (firstInlineData_none _ Hnone).
  rewrite (find_hasText_first before after part Hb)
    by (unfold hasText; now rewrite Ht).
  destruct part as [i tx]. simpl in Ht. subst tx. now rewrite Htruthy.
Qed.

(** C4, as amended: when the first candidate has content parts, none of
    them binary, and [part] is the first one whose text is not empty, the
    promise is rejected with the fixed prefix "AI 回應：" followed by that
    text, provided the text does not contain "Requested entity was not
    found". *)
Theorem generateSwappedPoster_text_feedback (generateContent : Models)
    (poster : Types.UploadedImage) (people : list Types.UploadedImage)
    (response : GenerateContentResponse)
    (before after : list Part) (part : Part) (t : string) :
  generateContent (request poster people) = Return response ->
  contentParts (firstCandidate response) = Some (before ++ part :: after)%list ->
  Forall (fun p => inlineData p = None) (before ++ part :: after)%list ->
  Forall (fun p => hasText p = false) before ->
  text part = Some t ->
  t <> "" ->
  includes t "Requested entity was not found" = false ->
  fst (generateSwappedPoster generateContent poster people)
  = Throw (Error ("AI 回應：" ++ t)).
Proof.
  intros Hcall Hps Hnone Hb Ht Hne Hsig.
  apply truthy_nonempty in Hne.
  rewrite (settle_answer _ _ _ _ Hcall).
  rewrite (resolveResponse_text response before after part t) by assumption.
  unfold tryCatch, translateFailure, entityNotFound. cbn [message Error].
  rewrite includes_feedback. change ENTITY_NOT_FOUND with
    "Requested entity was not found". rewrite Hsig. reflexivity.
Qed.

Lemma generateSwappedPoster_text_feedback_witness :
  fst (generateSwappedPoster
         (Samples.answering
            (Samples.answer [Samples.says ""; Samples.says "Too blurry";
                             Samples.says "Retry"] None))
         Samples.thePoster [Samples.alice])
  = Throw (Error ("AI 回應：" ++ "Too blurry")).
Proof.
  apply (generateSwappedPoster_text_feedback
           (Samples.answering
              (Samples.answer [Samples.says ""; Samples.says "Too blurry";
                               Samples.says "Retry"] None))
           Samples.thePoster [Samples.alice] _
           [Samples.says ""] [Samples.says "Retry"]
           (Samples.says "Too blurry") "Too blurry" eq_refl eq_refl).
  - repeat constructor.
  - repeat constructor.
  - reflexivity.
  - discriminate.
  - reflexivity.
Defined.

(** C4, as stated, fails: the message is not the text itself, the code
    puts "AI 回應：" in front of it. *)
Lemma generateSwappedPoster_text_not_verbatim :
  ~ (forall (generateContent : Models)
            (poster : Types.UploadedImage) (people : list Types.UploadedImage)
            (response : GenerateContentResponse) (ps : list Part) (t : string),
       generateContent (request poster people) = Return response ->
       contentParts (firstCandidate response) = Some ps ->
       Forall (fun p => inlineData p = None) ps ->
       Spec.firstText ps = Some t ->
       fst (generateSwappedPoster generateContent poster people)
       = Throw (Error t)).
Proof.
  intros H.
  specialize (H (Samples.answering
                   (Samples.answer [Samples.says "Too blurry"] None))
                Samples.thePoster [Samples.alice] _
                [Samples.says "Too blurry"] "Too blurry" eq_refl eq_refl).
  discriminate H; [repeat constructor | reflexivity].
Qed.

(** C10: when no part is binary and the first part with a text holds a
    text that contains "Requested entity was not found", the error thrown
    by the resolution is caught by the function's own [catch] clause and
    the promise is rejected with "KEY_NOT_FOUND", not with the feedback
    message. *)
Theorem generateSwappedPoster_text_entity_not_found (generateContent : Models)
    (poster : Types.UploadedImage) (people : list Types.UploadedImage)
    (response : GenerateContentResponse)
    (before after : list Part) (part : Part) (t : string) :
  generateContent (request poster people) = Return response ->
  contentParts (firstCandidate response) = Some (before ++ part :: after)%list ->
  Forall (fun p => inlineData p = None) (before ++ part :: after)%list ->
  Forall (fun p => hasText p = false) before ->
  text part = Some t ->
  includes t "Requested entity was not found" = true ->
  fst (generateSwappedPoster generateContent poster people)
  = Throw (Error "KEY_NOT_FOUND")
  /\ Throw (A := string) (Error "KEY_NOT_FOUND")
     <> Throw (Error ("AI 回應：" ++ t)).
Proof.
  intros Hcall Hps Hnone Hb Ht Hsig. split; [|discriminate].
  rewrite (settle_answer _ _ _ _ Hcall).
  rewrite (resolveResponse_text response before after part t);
    try assumption.
  - unfold tryCatch, translateFailure, entityNotFound. cbn [message Error].
    rewrite includes_feedback. change ENTITY_NOT_FOUND with
      "Requested entity was not found". rewrite Hsig. reflexivity.
  - now apply (includes_truthy t "Requested entity was not found").
Qed.

Lemma generateSwappedPoster_text_entity_not_found_witness :
  fst (generateSwappedPoster
         (Samples.answering
            (Samples.answer
               [Samples.says "Error: Requested entity was not found."] None))
         Samples.thePoster [Samples.alice])
  = Throw (Error "KEY_NOT_FOUND").
Proof.
  apply (generateSwappedPoster_text_entity_not_found
           (Samples.answering
              (Samples.answer
                 [Samples.says "Error: Requested entity was not found."] None))
           Samples.thePoster [Samples.alice] _
           [] [] (Samples.says "Error: Requested entity was not found.")
           "Error: Requested entity was not found." eq_refl eq_refl).
  - repeat constructor.
  - constructor.
  - reflexivity.
  - reflexivity.
Defined.

(** C5: when the remote call itself throws, an error whose message
    contains "Requested entity was not found" is rejected as
    "KEY_NOT_FOUND" whatever else the message holds; any other error is
    rejected with its own message, and with the fixed fallback message
    when it carries none (no [message], or an empty one). *)
Theorem generateSwappedPoster_transport_error (generateContent : Models)
    (poster : Types.UploadedImage) (people : list Types.UploadedImage)
    (e : JsError) :
  generateContent (request poster people) = Throw e ->
  let outcome := fst (generateSwappedPoster generateContent poster people) in
  (forall m, message e = Some m ->
             includes m "Requested entity was not found" = true ->
             outcome = Throw (Error "KEY_NOT_FOUND"))
  /\ (forall m, message e = Some m ->
                includes m "Requested entity was not found" = false ->
                m <> "" ->
                outcome = Throw (Error m))
  /\ (message e = None \/ message e = Some "" ->
      outcome = Throw (Error "生成過程中發生未知錯誤。")).
Proof.
  intros Hcall outcome. subst outcome.
  unfold generateSwappedPoster, settle. simpl fst. rewrite Hcall.
  unfold bind, tryCatch, translateFailure, entityNotFound, messageOrFallback.
  change ENTITY_NOT_FOUND with "Requested entity was not found".
  repeat split.
  - intros m Hm Hsig. now rewrite Hm, Hsig.
  - intros m Hm Hsig Hne. rewrite Hm, Hsig.
    apply truthy_nonempty in Hne. now rewrite Hne.
  - intros [Hm|Hm]; rewrite Hm; reflexivity.
Qed.

Lemma generateSwappedPoster_transport_error_witness :
  fst (generateSwappedPoster
         (Samples.throwing
            (Error "404 NOT_FOUND: Requested entity was not found. Quota ok."))
         Samples.thePoster [Samples.alice])
  = Throw (Error "KEY_NOT_FOUND").
Proof.
  apply (proj1 (generateSwappedPoster_transport_error
                  (Samples.throwing
                     (Error "404 NOT_FOUND: Requested entity was not found. Quota ok."))
                  Samples.thePoster [Samples.alice] _ eq_refl)
               "404 NOT_FOUND: Requested entity was not found. Quota ok.");
    reflexivity.
Defined.

Example generateSwappedPoster_network_error :
  fst (generateSwappedPoster (Samples.throwing (Error "Failed to fetch"))
         Samples.thePoster [Samples.alice])
  = Throw (Error "Failed to fetch").
Proof. reflexivity. Qed.

(** C8: the request sent for a poster and N person images carries N + 2
    parts: part 0 is the poster's payload with its MIME type, part i + 1
    is the payload of person i with its MIME type, in list order, and the
    last part, at index N + 1, is the constant instruction text [prompt],
    which depends on neither the poster nor the people. *)
Theorem request_parts (generateContent : Models)
    (poster : Types.UploadedImage) (people : list Types.UploadedImage) :
  let binary (image : Types.UploadedImage) : Part :=
    {| inlineData := Some {| data := Types.base64 image;
                             mimeType := Types.mimeType image |};
       text := None |} in
  let N := List.length people in
  exists ps : list Part,
    snd (generateSwappedPoster generateContent poster people)
    = [request poster people]
    /\ parts (contents (request poster people)) = Some ps
    /\ List.length ps = N + 2
    /\ nth_error ps 0 = Some (binary poster)
    /\ (forall i person, nth_error people i = Some person ->
                         nth_error ps (S i) = Some (binary person))
    /\ nth_error ps (N + 1) = Some {| inlineData := None; text := Some prompt |}.
Proof.
  intros binary N. exists (requestParts poster people).
  split; [reflexivity|]. split; [reflexivity|]. unfold requestParts.
  split; [|split; [reflexivity|split]].
  - subst N. simpl. rewrite length_app, length_map. simpl. lia.
  - intros i person Hi. simpl.
    rewrite nth_error_app1 by (rewrite length_map; apply nth_error_Some; congruence).
    now rewrite nth_error_map, Hi.
  - subst N. rewrite Nat.add_1_r. simpl.
    rewrite nth_error_app2 by (rewrite length_map; apply le_n).
    rewrite length_map, Nat.sub_diag. reflexivity.
Qed.

(** The instruction text is the template literal, trimmed. *)
Example prompt_shape :
  String.length prompt = 1575
  /\ prefix "TASK: HIGH-END CINEMATIC CHARACTER COMPOSITE" prompt = true
  /\ substring 1535 40 prompt = "hed on-set for this specific production.".
Proof. repeat split. Qed.

Example request_parts_two_people :
  requestParts Samples.thePoster [Samples.alice; Samples.bob]
  = [ {| inlineData := Some {| data := "UE9TVEVS"; mimeType := "image/jpeg" |};
         text := None |};
      {| inlineData := Some {| data := "QUxJQ0U="; mimeType := "image/jpeg" |};
         text := None |};
      {| inlineData := Some {| data := "Qk9C"; mimeType := "image/jpeg" |};
         text := None |};
      {| inlineData := None; text := Some prompt |} ].
Proof. reflexivity. Qed.

End GeminiServiceFacts.

(** ** The generation handler *)

Module AppFacts.
Import Control GenAI Types App Spec.

(** No generation is invoked exactly when a precondition fails. *)
Lemma invocation_none (generateContent : Models) (w : World) :
  invocation generateContent w = None
  <-> hasKey w = false \/ poster (state w) = None \/ people (state w) = [].
Proof.
  unfold invocation.
  destruct (hasKey w); [|tauto].
  destruct (poster (state w)) as [p|]; [|tauto].
  destruct (people (state w)) as [|x xs]; [tauto|].
  split; [discriminate|]. intros [H|[H|H]]; discriminate.
Qed.

(** C7: in a session that violates a precondition of the generation (no
    credential selected, no poster, or no person image) the handler only
    sets the error message of the first violated precondition: no request
    reaches the remote model, which is not consulted at all, and the
    credential flag and the rest of the state stay as they were. *)
Theorem handleProcess_precondition (generateContent : Models) (w : World) :
  hasKey w = false \/ poster (state w) = None \/ people (state w) = [] ->
  let w' := handleProcess generateContent w in
  remoteCalls w' = remoteCalls w
  /\ (forall other : Models, handleProcess other w = w')
  /\ hasKey w' = hasKey w
  /\ state w' = withError (error (state w')) (state w)
  /\ error (state w')
     = Some (if negb (hasKey w) then "使用 Pro 模式需要先選取您的 API Key。"
             else match poster (state w) with
                  | None => "請上傳一張電影海報。"
                  | Some _ => "請上傳至少一位置換人物。"
                  end).
Proof.
  intros H w'. subst w'. unfold handleProcess.
  destruct (hasKey w) eqn:K; simpl;
    [|repeat split; simpl; rewrite ?K; reflexivity].
  destruct (poster (state w)) as [p|] eqn:P;
    [|repeat split; simpl; rewrite ?K, ?P; reflexivity].
  destruct (people (state w)) as [|x xs] eqn:Q.
  - repeat split; simpl; rewrite ?K, ?P, ?Q; reflexivity.
  - destruct H as [H|[H|H]]; discriminate.
Qed.

(** Scenario B of the specification: no poster selected. *)
Lemma handleProcess_precondition_witness :
  let w := {| hasKey := true;
              state := {| poster := None; people := [Samples.alice];
                          isProcessing := false; result := None;
                          error := None |};
              remoteCalls := [] |} in
  let w' := handleProcess (Samples.answering
                             (Samples.answer [Samples.binary "XYZ"] None)) w in
  remoteCalls w' = [] /\ error (state w') = Some "請上傳一張電影海報。".
Proof.
  intros w w'.
  destruct (handleProcess_precondition
              (Samples.answering (Samples.answer [Samples.binary "XYZ"] None))
              w (or_intror (or_introl eq_refl)))
    as (Hcalls & _ & _ & _ & Herr).
  split; [exact Hcalls | exact Herr].
Defined.

(** C6: when the generation is invoked and fails with the message
    "KEY_NOT_FOUND", the handler sets the credential flag to false, clears
    the processing flag and shows the invalid-or-expired credential
    message; in every other case (a precondition failure, a success, a
    failure with any other message) the credential flag keeps its value. *)
Theorem handleProcess_key_not_found (generateContent : Models) (w : World) :
  let w' := handleProcess generateContent w in
  (invocation generateContent w = Some (Throw (Error "KEY_NOT_FOUND")) ->
   hasKey w' = false
   /\ isProcessing (state w') = false
   /\ error (state w') = Some "API Key 無效或已過期，請重新選取。")
  /\ (invocation generateContent w <> Some (Throw (Error "KEY_NOT_FOUND")) ->
      hasKey w' = hasKey w).
Proof.
  intros w'. subst w'. unfold handleProcess, invocation.
  destruct (hasKey w) eqn:K; simpl;
    [|split; [discriminate|intros _; exact K]].
  destruct (poster (state w)) as [p|] eqn:P;
    [|split; [discriminate|intros _; exact K]].
  destruct (people (state w)) as [|x xs] eqn:Q;
    [split; [discriminate|intros _; exact K]|].
  unfold GeminiService.generateSwappedPoster. simpl.
  destruct (GeminiService.settle _) as [resultUrl|err].
  - split; [discriminate|]. intros _. simpl. exact K.
  - destruct err as [[m|]]; unfold isKeyNotFound; cbn [message].
    + destruct (String.eqb_spec m "KEY_NOT_FOUND") as [->|Hm].
      * split; [intros _; repeat split|]. intros Hn. now contradiction Hn.
      * split; [|intros _; simpl; exact K].
        intros H. injection H as H. now contradiction Hm.
    + split; [discriminate|]. intros _. simpl. exact K.
Qed.

(** Scenario C of the specification: the remote call throws a transport
    error that contains "Requested entity was not found". *)
Example handleProcess_entity_not_found :
  let w := {| hasKey := true; state := Samples.readySession;
              remoteCalls := [] |} in
  let w' := handleProcess
              (Samples.throwing (Error "Requested entity was not found."))
              w in
  hasKey w' = false
  /\ state w' = {| poster := Some Samples.thePoster;
                   people := [Samples.alice; Samples.bob];
                   isProcessing := false; result := None;
                   error := Some "API Key 無效或已過期，請重新選取。" |}
  /\ remoteCalls w'
     = [GeminiService.request Samples.thePoster [Samples.alice; Samples.bob]].
Proof. repeat split. Qed.

(** Scenario A of the specification, end to end. *)
Example handleProcess_success :
  let w := {| hasKey := true; state := Samples.readySession;
              remoteCalls := [] |} in
  let w' := handleProcess
              (Samples.answering (Samples.answer [Samples.binary "XYZ"] None))
              w in
  hasKey w' = true
  /\ state w' = {| poster := Some Samples.thePoster;
                   people := [Samples.alice; Samples.bob];
                   isProcessing := false;
                   result := Some "data:image/png;base64,XYZ";
                   error := None |}
  /\ map (fun r => aspectRatio (imageConfig (config r))) (remoteCalls w')
     = ["3:4"].
Proof. repeat split. Qed.

End AppFacts.

(** ** More on the adapter *)

Module AdapterFacts.
Import Number Control GenAI GeminiService JSString JSStringFacts.
Import NumberFacts AspectRatioFacts GeminiServiceFacts.

Lemma supported_names (c : Ratio) :
  In c supported -> In (name c) ["9:16"; "3:4"; "1:1"; "4:3"; "16:9"].
Proof.
  intros H. repeat (destruct H as [H|H]; [subst c; simpl; tauto|]).
  destruct H.
Qed.

(** Whatever the optional dimensions are (absent, zero, negative, infinite
    or NaN), the selector answers one of the five supported names, and so
    does the [aspectRatio] of every request. *)
Theorem getClosestAspectRatio_range :
  (forall width height : option number,
      In (getClosestAspectRatio width height)
         ["9:16"; "3:4"; "1:1"; "4:3"; "16:9"])
  /\ (forall poster people,
         In (aspectRatio (imageConfig (config (request poster people))))
            ["9:16"; "3:4"; "1:1"; "4:3"; "16:9"]).
Proof.
  assert (R : forall width height : option number,
             In (getClosestAspectRatio width height)
                ["9:16"; "3:4"; "1:1"; "4:3"; "16:9"]).
  { intros width height. unfold getClosestAspectRatio.
    destruct (falsy width || falsy height); [simpl; tauto|].
    destruct width as [w|]; [|simpl; tauto].
    destruct height as [h|]; [|simpl; tauto].
    destruct (reduce_closer_firstClosest (div w h))
      as (c & -> & before & after & Hl & _).
    apply supported_names. rewrite Hl. apply in_elt. }
  split; [exact R|]. intros poster people. apply R.
Qed.

(** The guard also covers a width or a height that is present but zero or
    NaN: nothing is divided and the default 3:4 is returned. *)
Theorem getClosestAspectRatio_falsy (width height : number) :
  Number.truthy width = false \/ Number.truthy height = false ->
  getClosestAspectRatio (Some width) (Some height) = "3:4".
Proof.
  intros [H|H]; unfold getClosestAspectRatio, falsy; rewrite H;
    [reflexivity | now rewrite orb_true_r].
Qed.

Lemma getClosestAspectRatio_falsy_witness :
  getClosestAspectRatio (Some (of_Z 1000)) (Some (of_Z 0)) = "3:4".
Proof.
  apply (getClosestAspectRatio_falsy (of_Z 1000) (of_Z 0)).
  right. reflexivity.
Defined.

(** A poster whose quotient width/height is exactly the quotient of a
    supported ratio is sent with that ratio. *)
Theorem getClosestAspectRatio_exact (width height : number) (c : Ratio) :
  Number.truthy width = true -> Number.truthy height = true ->
  In c supported ->
  div width height = value c ->
  getClosestAspectRatio (Some width) (Some height) = name c.
Proof.
  intros Hw Hh Hc Hq. unfold getClosestAspectRatio, falsy.
  rewrite Hw, Hh, Hq. simpl orb. cbv iota.
  repeat (destruct Hc as [Hc|Hc]; [subst c; vm_compute; reflexivity|]).
  destruct Hc.
Qed.

Lemma getClosestAspectRatio_exact_witness :
  getClosestAspectRatio (Some (of_Z 1920)) (Some (of_Z 1080)) = "16:9".
Proof.
  apply (getClosestAspectRatio_exact (of_Z 1920) (of_Z 1080)
           {| name := "16:9"; value := div (of_Z 16) (of_Z 9) |});
    try reflexivity.
  simpl. tauto.
Defined.

Lemma find_hasText_none (ps : list Part) :
  Forall (fun p => text p = None \/ text p = Some EmptyString) ps ->
  find hasText ps = None.
Proof.
  intros H. induction H as [|p ps Hp _ IH]; [reflexivity|].
  simpl. unfold hasText at 1. now destruct Hp as [-> | ->].
Qed.

(** When the first candidate has content parts (possibly none at all) and
    no part carries a binary payload or a non-empty text, the promise is
    rejected with the fixed could-not-obtain-the-image message. *)
Theorem generateSwappedPoster_nothing_usable (generateContent : Models)
    (poster : Types.UploadedImage) (people : list Types.UploadedImage)
    (response : GenerateContentResponse) (ps : list Part) :
  generateContent (request poster people) = Return response ->
  contentParts (firstCandidate response) = Some ps ->
  Forall (fun p => inlineData p = None) ps ->
  Forall (fun p => text p = None \/ text p = Some EmptyString) ps ->
  fst (generateSwappedPoster generateContent poster people)
  = Throw (Error "未能成功獲取置換後的影像。").
Proof.
  intros Hcall Hps Hbin Htxt.
  rewrite (settle_answer _ _ _ _ Hcall). unfold resolveResponse.
  now rewrite Hps, (firstInlineData_none _ Hbin), (find_hasText_none _ Htxt).
Qed.

Lemma generateSwappedPoster_nothing_usable_witness :
  fst (generateSwappedPoster (Samples.answering (Samples.answer [] None))
         Samples.thePoster [Samples.alice])
  = Throw (Error "未能成功獲取置換後的影像。")
  /\ fst (generateSwappedPoster
            (Samples.answering
               (Samples.answer [Samples.says EmptyString] (Some "STOP")))
            Samples.thePoster [Samples.alice])
     = Throw (Error "未能成功獲取置換後的影像。").
Proof.
  split.
  - apply (generateSwappedPoster_nothing_usable
             (Samples.answering (Samples.answer [] None))
             Samples.thePoster [Samples.alice] _ [] eq_refl eq_refl);
      constructor.
  - apply (generateSwappedPoster_nothing_usable
             (Samples.answering
                (Samples.answer [Samples.says EmptyString] (Some "STOP")))
             Samples.thePoster [Samples.alice] _
             [Samples.says EmptyString] eq_refl eq_refl).
    + repeat constructor.
    + constructor; [now right | constructor].
Defined.

(** Every error that leaves the [catch] clause has a non-empty message. *)
Lemma translateFailure_message (A : Type) (e : JsError) :
  exists m, translateFailure (A := A) e = Throw (Error m) /\ m <> EmptyString.
Proof.
  unfold translateFailure. destruct (entityNotFound e).
  - exists KEY_NOT_FOUND. split; [reflexivity|discriminate].
  - exists (messageOrFallback e). split; [reflexivity|].
    unfold messageOrFallback. destruct (message e) as [m|]; [|discriminate].
    destruct (truthy m) eqn:T; [now apply truthy_nonempty|discriminate].
Qed.

(** The try block returns only the prefixed payload of a binary part, and
    throws only [Error] objects. *)
Lemma resolveResponse_shape (response : GenerateContentResponse) :
  (exists ps blob,
      contentParts (firstCandidate response) = Some ps
      /\ firstInlineData ps = Some blob
      /\ resolveResponse response = Return (PNG_PREFIX ++ data blob))
  \/ (exists m, resolveResponse response = Throw (Error m)).
Proof.
  unfold resolveResponse.
  destruct (contentParts (firstCandidate response)) as [ps|].
  - destruct (firstInlineData ps) as [blob|] eqn:E.
    + left. now exists ps, blob.
    + right. destruct (find hasText ps) as [[i [t|]]|]; eauto.
      destruct (truthy t); eauto.
  - right. destruct (finishedForSafety _); eauto.
Qed.

Lemma settle_shape (answer : Completion GenerateContentResponse) :
  (exists response ps blob,
      answer = Return response
      /\ contentParts (firstCandidate response) = Some ps
      /\ firstInlineData ps = Some blob
      /\ settle answer = Return (PNG_PREFIX ++ data blob))
  \/ (exists m, settle answer = Throw (Error m) /\ m <> EmptyString).
Proof.
  unfold settle. destruct answer as [response|e]; simpl.
  - destruct (resolveResponse_shape response)
      as [(ps & blob & Hps & Hb & Hr)|(m & Hr)]; rewrite Hr; simpl.
    + left. now exists response, ps, blob.
    + right. apply translateFailure_message.
  - right. apply translateFailure_message.
Qed.

(** The same, without the provenance of the payload. *)
Lemma generateSwappedPoster_settle_cases (generateContent : Models)
    (poster : Types.UploadedImage) (people : list Types.UploadedImage) :
  (exists d, fst (generateSwappedPoster generateContent poster people)
             = Return (PNG_PREFIX ++ d))
  \/ (exists m, fst (generateSwappedPoster generateContent poster people)
                = Throw (Error m) /\ m <> EmptyString).
Proof.
  destruct (settle_shape (generateContent (request poster people)))
    as [(r & ps & blob & _ & _ & _ & H)|H]; [left|right; exact H].
  now exists (data blob).
Qed.

(** The promise never settles in any other way than these two: it is
    fulfilled, with the PNG prefix followed by the payload of a binary part
    that the remote model really answered, or it is rejected with an
    [Error] whose message is not empty.  In particular no image is made up
    when the call throws or the answer has no binary part. *)
Theorem generateSwappedPoster_outcome (generateContent : Models)
    (poster : Types.UploadedImage) (people : list Types.UploadedImage) :
  let outcome := fst (generateSwappedPoster generateContent poster people) in
  (exists response ps blob,
      generateContent (request poster people) = Return response
      /\ contentParts (firstCandidate response) = Some ps
      /\ firstInlineData ps = Some blob
      /\ outcome = Return ("data:image/png;base64," ++ data blob))
  \/ (exists m, outcome = Throw (Error m) /\ m <> EmptyString).
Proof. intros outcome. apply settle_shape. Qed.

End AdapterFacts.

(** ** The session: handlers, phases and rendering *)

Module SessionFacts.
Import Control GenAI Types App Handlers Spec.
Import JSStringFacts GeminiServiceFacts AdapterFacts.

(** A run of the handler is its first phase followed, when a promise is
    pending, by its second phase. *)
Lemma handleProcess_phases (generateContent : Models) (w : World) :
  handleProcess generateContent w
  = match handleProcessBegin generateContent w with
    | (w1, Some outcome) => handleProcessSettle outcome w1
    | (w1, None) => w1
    end.
Proof.
  unfold handleProcess, handleProcessBegin.
  destruct (negb (hasKey w)); [reflexivity|].
  destruct (poster (state w)) as [p|]; [|reflexivity].
  destruct (Nat.eqb _ 0); [reflexivity|].
  now destruct (GeminiService.generateSwappedPoster _ _ _).
Qed.

(** What [invocation] says in terms of the session. *)
Lemma invocation_some (generateContent : Models) (w : World)
    (outcome : Completion string) :
  invocation generateContent w = Some outcome ->
  exists p, hasKey w = true
            /\ poster (state w) = Some p
            /\ Nat.eqb (List.length (people (state w))) 0 = false
            /\ outcome = fst (GeminiService.generateSwappedPoster
                                generateContent p (people (state w))).
Proof.
  unfold invocation. destruct (hasKey w); [|discriminate].
  destruct (poster (state w)) as [p|]; [|discriminate].
  destruct (people (state w)) as [|x xs]; [discriminate|].
  intros H. injection H as <-. now exists p.
Qed.

Lemma handleProcess_invoked (generateContent : Models) (w : World)
    (outcome : Completion string) :
  invocation generateContent w = Some outcome ->
  exists p,
    poster (state w) = Some p
    /\ handleProcess generateContent w
       = handleProcessSettle outcome
           (record [GeminiService.request p (people (state w))]
                   (setState started w)).
Proof.
  intros H. destruct (invocation_some _ _ _ H) as (p & K & P & Q & ->).
  exists p. split; [exact P|].
  unfold handleProcess. rewrite K, P, Q. reflexivity.
Qed.

Lemma handleProcessBegin_invoked (generateContent : Models) (w : World)
    (outcome : Completion string) :
  invocation generateContent w = Some outcome ->
  exists p,
    poster (state w) = Some p
    /\ handleProcessBegin generateContent w
       = (record [GeminiService.request p (people (state w))]
                 (setState started w),
          Some outcome).
Proof.
  intros H. destruct (invocation_some _ _ _ H) as (p & K & P & Q & ->).
  exists p. split; [exact P|].
  unfold handleProcessBegin. rewrite K, P, Q. reflexivity.
Qed.

(** A fulfilled generation.  When the promise is fulfilled, the handler
    sets the result and clears the processing flag on the state of that
    moment, whose poster, people and error it keeps, as it keeps the
    credential flag and sends nothing.  When nothing else has run since
    the click, the state is then: poster and people as at the click, no
    error, the result, and exactly one request has been sent, for them. *)
Theorem generation_fulfilled (generateContent : Models) (w : World)
    (resultUrl : string) :
  invocation generateContent w = Some (Return resultUrl) ->
  (forall w2,
      let w' := handleProcessSettle (Return resultUrl) w2 in
      hasKey w' = hasKey w2
      /\ remoteCalls w' = remoteCalls w2
      /\ state w' = {| poster := poster (state w2);
                       people := people (state w2);
                       isProcessing := false;
                       result := Some resultUrl;
                       error := error (state w2) |})
  /\ exists p w1,
       poster (state w) = Some p
       /\ handleProcessBegin generateContent w = (w1, Some (Return resultUrl))
       /\ remoteCalls w1
          = (remoteCalls w
               ++ [GeminiService.request p (people (state w))])%list
       /\ hasKey (handleProcessSettle (Return resultUrl) w1) = hasKey w
       /\ state (handleProcessSettle (Return resultUrl) w1)
          = {| poster := poster (state w);
               people := people (state w);
               isProcessing := false;
               result := Some resultUrl;
               error := None |}.
Proof.
  intros H. split; [intros w2; repeat split|].
  destruct (handleProcessBegin_invoked _ _ _ H) as (p & P & E).
  exists p. eexists. split; [exact P|]. split; [exact E|]. repeat split.
Qed.

Lemma generation_fulfilled_witness :
  exists p w1,
    Some Samples.thePoster = Some p
    /\ handleProcessBegin
         (Samples.answering (Samples.answer [Samples.binary "XYZ"] None))
         {| hasKey := true; state := Samples.readySession;
            remoteCalls := [] |}
       = (w1, Some (Return "data:image/png;base64,XYZ"))
    /\ remoteCalls w1
       = ([] ++ [GeminiService.request p [Samples.alice; Samples.bob]])%list
    /\ hasKey (handleProcessSettle (Return "data:image/png;base64,XYZ") w1)
       = true
    /\ state (handleProcessSettle (Return "data:image/png;base64,XYZ") w1)
       = {| poster := Some Samples.thePoster;
            people := [Samples.alice; Samples.bob];
            isProcessing := false;
            result := Some "data:image/png;base64,XYZ";
            error := None |}.
Proof.
  apply (proj2 (generation_fulfilled
                  (Samples.answering
                     (Samples.answer [Samples.binary "XYZ"] None))
                  {| hasKey := true; state := Samples.readySession;
                     remoteCalls := [] |}
                  "data:image/png;base64,XYZ" eq_refl)).
Defined.

(** A generation rejected with any message other than "KEY_NOT_FOUND".
    The message is never empty.  When the promise is rejected, the handler
    makes it the error and clears the processing flag on the state of that
    moment, whose poster, people and result it keeps, as it keeps the
    credential flag.  When nothing else has run since the click, the state
    is then: poster and people as at the click, the error, and no result,
    even if an earlier generation had left one before the click. *)
Theorem generation_rejected (generateContent : Models) (w : World)
    (err : JsError) :
  invocation generateContent w = Some (Throw err) ->
  message err <> Some "KEY_NOT_FOUND" ->
  exists m,
    message err = Some m /\ m <> EmptyString
    /\ (forall w2,
           let w' := handleProcessSettle (Throw err) w2 in
           hasKey w' = hasKey w2
           /\ remoteCalls w' = remoteCalls w2
           /\ state w' = {| poster := poster (state w2);
                            people := people (state w2);
                            isProcessing := false;
                            result := result (state w2);
                            error := Some m |})
    /\ exists w1,
         handleProcessBegin generateContent w = (w1, Some (Throw err))
         /\ state (handleProcessSettle (Throw err) w1)
            = {| poster := poster (state w);
                 people := people (state w);
                 isProcessing := false;
                 result := None;
                 error := Some m |}.
Proof.
  intros H Hk.
  destruct (handleProcessBegin_invoked _ _ _ H) as (p & P & E).
  destruct (invocation_some _ _ _ H) as (p' & _ & _ & _ & Ho).
  destruct (generateSwappedPoster_settle_cases generateContent p'
              (people (state w))) as [(d & Hd)|(m & Hd & Hne)];
    rewrite Hd in Ho; [discriminate|].
  injection Ho as ->. exists m.
  split; [reflexivity|]. split; [exact Hne|].
  assert (K : isKeyNotFound (Error m) = false).
  { unfold isKeyNotFound. cbn [message Error].
    destruct (String.eqb_spec m "KEY_NOT_FOUND") as [->|_];
      [now contradiction Hk | reflexivity]. }
  split.
  - intros w2. unfold handleProcessSettle. rewrite K. repeat split.
  - eexists. split; [exact E|].
    unfold handleProcessSettle. rewrite K. reflexivity.
Qed.

Lemma generation_rejected_witness :
  exists m,
    message (Error "Failed to fetch") = Some m /\ m <> EmptyString
    /\ (forall w2,
           let w' := handleProcessSettle (Throw (Error "Failed to fetch")) w2 in
           hasKey w' = hasKey w2
           /\ remoteCalls w' = remoteCalls w2
           /\ state w' = {| poster := poster (state w2);
                            people := people (state w2);
                            isProcessing := false;
                            result := result (state w2);
                            error := Some m |})
    /\ exists w1,
         handleProcessBegin (Samples.throwing (Error "Failed to fetch"))
           {| hasKey := true;
              state := succeeded "data:image/png;base64,OLD"
                         Samples.readySession;
              remoteCalls := [] |}
         = (w1, Some (Throw (Error "Failed to fetch")))
         /\ state (handleProcessSettle (Throw (Error "Failed to fetch")) w1)
            = {| poster := Some Samples.thePoster;
                 people := [Samples.alice; Samples.bob];
                 isProcessing := false;
                 result := None;
                 error := Some m |}.
Proof.
  apply (generation_rejected
           (Samples.throwing (Error "Failed to fetch"))
           {| hasKey := true;
              state := succeeded "data:image/png;base64,OLD"
                         Samples.readySession;
              remoteCalls := [] |}
           (Error "Failed to fetch") eq_refl).
  discriminate.
Defined.

(** No run of the handler touches the poster or the people, and a run
    sends one request, for the session's poster and people, exactly when
    the three preconditions hold, and none otherwise. *)
Theorem handleProcess_frame (generateContent : Models) (w : World) :
  let w' := handleProcess generateContent w in
  poster (state w') = poster (state w)
  /\ people (state w') = people (state w)
  /\ remoteCalls w'
     = (remoteCalls w
          ++ match invocation generateContent w, poster (state w) with
             | Some _, Some p =>
                 [GeminiService.request p (people (state w))]
             | _, _ => []
             end)%list.
Proof.
  intros w'. subst w'.
  destruct (invocation generateContent w) as [outcome|] eqn:I.
  - destruct (handleProcess_invoked _ _ _ I) as (p & P & ->).
    unfold handleProcessSettle. destruct outcome as [url|err].
    + repeat split; simpl; now rewrite ?P.
    + destruct (isKeyNotFound err); repeat split; simpl; now rewrite ?P.
  - apply AppFacts.invocation_none in I. unfold handleProcess.
    destruct (hasKey w); simpl;
      [|repeat split; simpl; now rewrite app_nil_r].
    destruct (poster (state w)) as [p|] eqn:P;
      [|repeat split; simpl; now rewrite ?P, ?app_nil_r].
    destruct (people (state w)) as [|x xs] eqn:Q.
    + repeat split; simpl; now rewrite ?P, ?Q, ?app_nil_r.
    + destruct I as [I|[I|I]]; discriminate.
Qed.




(** The button is enabled only in a session from which a click passes all
    three guards: the click then sends exactly one request, sets the
    processing flag, shows the spinner and disables the button. *)
Theorem enabled_click_begins (generateContent : Models) (w : World) :
  generateDisabled w = false ->
  exists p outcome,
    poster (state w) = Some p
    /\ handleProcessBegin generateContent w
       = (record [GeminiService.request p (people (state w))]
                 (setState started w),
          Some outcome)
    /\ invocation generateContent w = Some outcome
    /\ resultPanel (state (fst (handleProcessBegin generateContent w)))
       = Spinner
    /\ generateDisabled (fst (handleProcessBegin generateContent w)) = true.
Proof.
  unfold generateDisabled, handleProcessBegin, invocation. intros H.
  apply orb_false_elim in H as [H K].
  apply orb_false_elim in H as [H Q].
  apply orb_false_elim in H as [R P].
  apply negb_false_iff in K. rewrite K. simpl negb. cbv iota.
  destruct (poster (state w)) as [p|]; [|discriminate].
  rewrite Q. destruct (people (state w)) as [|x xs] eqn:E; [discriminate|].
  exists p. eexists. repeat split.
Qed.

Lemma enabled_click_begins_witness :
  exists p outcome,
    Some Samples.thePoster = Some p
    /\ handleProcessBegin
         (Samples.answering (Samples.answer [Samples.binary "XYZ"] None))
         {| hasKey := true; state := Samples.readySession;
            remoteCalls := [] |}
       = (record [GeminiService.request p [Samples.alice; Samples.bob]]
                 (setState started
                    {| hasKey := true; state := Samples.readySession;
                       remoteCalls := [] |}),
          Some outcome)
    /\ invocation
         (Samples.answering (Samples.answer [Samples.binary "XYZ"] None))
         {| hasKey := true; state := Samples.readySession;
            remoteCalls := [] |}
       = Some outcome
    /\ resultPanel
         (state (fst (handleProcessBegin
                        (Samples.answering
                           (Samples.answer [Samples.binary "XYZ"] None))
                        {| hasKey := true; state := Samples.readySession;
                           remoteCalls := [] |})))
       = Spinner
    /\ generateDisabled
         (fst (handleProcessBegin
                 (Samples.answering
                    (Samples.answer [Samples.binary "XYZ"] None))
                 {| hasKey := true; state := Samples.readySession;
                    remoteCalls := [] |}))
       = true.
Proof.
  apply (enabled_click_begins
           (Samples.answering (Samples.answer [Samples.binary "XYZ"] None))
           {| hasKey := true; state := Samples.readySession;
              remoteCalls := [] |} eq_refl).
Defined.

Lemma act_keeps_processing (w : World) (a : Action) :
  isReset a = false ->
  isProcessing (state (act w a)) = isProcessing (state w).
Proof.
  destruct a as [image|image| |id| |[u|e]]; try reflexivity; discriminate.
Qed.

(** While a generation is in flight the button stays disabled whatever the
    user uploads or removes and however the key dialog ends; only a reset
    lifts the processing flag before the promise settles. *)
Theorem in_flight_disabled (w : World) (actions : list Action) :
  isProcessing (state w) = true ->
  forallb (fun a => negb (isReset a)) actions = true ->
  isProcessing (state (fold_left act actions w)) = true
  /\ generateDisabled (fold_left act actions w) = true.
Proof.
  intros Hp Ha.
  assert (H : isProcessing (state (fold_left act actions w)) = true).
  { revert w Hp. induction actions as [|a actions IH]; intros w Hp;
      [exact Hp|].
    simpl in Ha. apply andb_true_iff in Ha as [Ha Hrest].
    apply negb_true_iff in Ha. simpl. apply IH; [exact Hrest|].
    now rewrite act_keeps_processing. }
  split; [exact H|]. unfold generateDisabled. now rewrite H.
Qed.

Lemma in_flight_disabled_witness :
  generateDisabled
    (fold_left act
       [PersonUpload Samples.bob; RemovePoster;
        OpenKeyDialog (Return tt); RemovePerson "alice.jpg";
        PosterUpload Samples.thePoster]
       (fst (handleProcessBegin
               (Samples.answering (Samples.answer [Samples.binary "XYZ"] None))
               {| hasKey := true; state := Samples.readySession;
                  remoteCalls := [] |})))
  = true.
Proof.
  apply (in_flight_disabled
           (fst (handleProcessBegin
                   (Samples.answering
                      (Samples.answer [Samples.binary "XYZ"] None))
                   {| hasKey := true; state := Samples.readySession;
                      remoteCalls := [] |}))
           [PersonUpload Samples.bob; RemovePoster;
            OpenKeyDialog (Return tt); RemovePerson "alice.jpg";
            PosterUpload Samples.thePoster]
           eq_refl eq_refl).
Defined.

(** A reset does not cancel a generation in flight: when its promise is
    fulfilled afterwards, the result is set and displayed on the emptied
    session, whose button is disabled for want of a poster. *)
Theorem reset_does_not_cancel (generateContent : Models) (w : World)
    (resultUrl : string) :
  invocation generateContent w = Some (Return resultUrl) ->
  let w1 := fst (handleProcessBegin generateContent w) in
  let w' := handleProcessSettle (Return resultUrl) (resetAll w1) in
  state w' = {| poster := None; people := []; isProcessing := false;
                result := Some resultUrl; error := None |}
  /\ resultPanel (state w') = ResultImage resultUrl
  /\ generateDisabled w' = true
  /\ remoteCalls w' = remoteCalls w1.
Proof.
  intros H w1 w'. subst w1 w'.
  destruct (invocation_some _ _ _ H) as (p & _ & _ & _ & Ho).
  destruct (generateSwappedPoster_settle_cases generateContent p
              (people (state w))) as [(d & Hd)|(m & Hd & _)];
    rewrite Hd in Ho; [|discriminate].
  injection Ho as ->. repeat split.
Qed.

Lemma reset_does_not_cancel_witness :
  resultPanel
    (state (handleProcessSettle (Return "data:image/png;base64,XYZ")
              (resetAll
                 (fst (handleProcessBegin
                         (Samples.answering
                            (Samples.answer [Samples.binary "XYZ"] None))
                         {| hasKey := true; state := Samples.readySession;
                            remoteCalls := [] |})))))
  = ResultImage "data:image/png;base64,XYZ".
Proof.
  apply (reset_does_not_cancel
           (Samples.answering (Samples.answer [Samples.binary "XYZ"] None))
           {| hasKey := true; state := Samples.readySession;
              remoteCalls := [] |}
           "data:image/png;base64,XYZ" eq_refl).
Defined.

Lemma filter_otherThan_fresh (id : string) (l : list UploadedImage) :
  (forall q, In q l -> Types.id q <> id) -> filter (otherThan id) l = l.
Proof.
  induction l as [|q l IH]; intros H; [reflexivity|].
  simpl. unfold otherThan at 1.
  destruct (String.eqb_spec (Types.id q) id) as [E|_].
  - exfalso. apply (H q); [now left | exact E].
  - simpl. f_equal. apply IH. intros q' Hq'. apply H. now right.
Qed.

(** Removing a person right after uploading it gives back the list of
    people as it was, provided no other person bears the same identifier
    (persons that do are removed with it). *)
Theorem remove_after_upload (w : World) (image : UploadedImage) :
  (forall q, In q (people (state w)) -> Types.id q <> Types.id image) ->
  let w' := handleRemovePerson (Types.id image) (handlePersonUpload image w) in
  people (state w') = people (state w)
  /\ poster (state w') = poster (state w)
  /\ result (state w') = result (state w)
  /\ hasKey w' = hasKey w.
Proof.
  intros H w'. subst w'. repeat split. simpl.
  rewrite filter_app, (filter_otherThan_fresh _ _ H). simpl.
  unfold otherThan. rewrite String.eqb_refl. simpl. apply app_nil_r.
Qed.

Lemma remove_after_upload_witness :
  people (state (handleRemovePerson "bob.jpg"
                   (handlePersonUpload Samples.bob
                      {| hasKey := true;
                         state := {| poster := None;
                                     people := [Samples.alice];
                                     isProcessing := false;
                                     result := None;
                                     error := None |};
                         remoteCalls := [] |})))
  = [Samples.alice].
Proof.
  apply (remove_after_upload
           {| hasKey := true;
              state := {| poster := None; people := [Samples.alice];
                          isProcessing := false; result := None;
                          error := None |};
              remoteCalls := [] |}
           Samples.bob).
  intros q [<-|[]]. discriminate.
Defined.

Lemma requestParts_snoc (p : UploadedImage) (l : list UploadedImage)
    (image : UploadedImage) :
  GeminiService.requestParts p (l ++ [image])
  = (firstn (S (List.length l)) (GeminiService.requestParts p l)
       ++ [GeminiService.inlinePart image;
           GeminiService.textPart GeminiService.prompt])%list.
Proof.
  unfold GeminiService.requestParts. rewrite map_app. simpl. f_equal.
  rewrite <- (length_map GeminiService.inlinePart l).
  rewrite firstn_app, firstn_all, Nat.sub_diag. simpl.
  now rewrite app_nil_r, <- app_assoc.
Qed.

(** A person uploaded to a session that has a key and a poster comes last
    in the next request: the parts of the poster and of the people that
    were there keep their places, the new image follows them, and the
    instruction text closes the sequence. *)
Theorem uploaded_person_is_sent_last (generateContent : Models) (w : World)
    (p image : UploadedImage) :
  hasKey w = true ->
  poster (state w) = Some p ->
  let before := GeminiService.requestParts p (people (state w)) in
  exists sent,
    remoteCalls (handleProcess generateContent (handlePersonUpload image w))
    = (remoteCalls w ++ [sent])%list
    /\ parts (contents sent)
       = Some (firstn (S (List.length (people (state w)))) before
                 ++ [ {| inlineData :=
                           Some {| data := base64 image;
                                   GenAI.mimeType := Types.mimeType image |};
                         text := None |};
                      {| inlineData := None;
                         text := Some GeminiService.prompt |} ])%list.
Proof.
  intros K P before. subst before.
  exists (GeminiService.request p (people (state w) ++ [image])%list).
  split.
  - unfold handleProcess. simpl. rewrite K, P. simpl.
    rewrite length_app, Nat.add_1_r. simpl.
    unfold GeminiService.generateSwappedPoster. simpl.
    destruct (GeminiService.settle _) as [url|err];
      [reflexivity|destruct (isKeyNotFound err); reflexivity].
  - simpl. now rewrite requestParts_snoc.
Qed.

Lemma uploaded_person_is_sent_last_witness :
  exists sent,
    remoteCalls
      (handleProcess
         (Samples.answering (Samples.answer [Samples.binary "XYZ"] None))
         (handlePersonUpload Samples.bob
            {| hasKey := true;
               state := {| poster := Some Samples.thePoster;
                           people := [Samples.alice];
                           isProcessing := false; result := None;
                           error := None |};
               remoteCalls := [] |}))
    = ([] ++ [sent])%list
    /\ parts (contents sent)
       = Some (firstn 2 (GeminiService.requestParts Samples.thePoster
                           [Samples.alice])
                 ++ [ {| inlineData :=
                           Some {| data := "Qk9C";
                                   GenAI.mimeType := "image/jpeg" |};
                         text := None |};
                      {| inlineData := None;
                         text := Some GeminiService.prompt |} ])%list.
Proof.
  apply (uploaded_person_is_sent_last
           (Samples.answering (Samples.answer [Samples.binary "XYZ"] None))
           {| hasKey := true;
              state := {| poster := Some Samples.thePoster;
                          people := [Samples.alice];
                          isProcessing := false; result := None;
                          error := None |};
              remoteCalls := [] |}
           Samples.thePoster Samples.bob eq_refl eq_refl).
Defined.

End SessionFacts.

(** ** File selection and ingestion *)

Module ImageInputFacts.
Import Number Types App Handlers ImageInput.

Lemma readFrom_multiple (maxFiles : Z) (shown : nat) (files : list File) :
  forall i,
    readFrom true maxFiles shown i files
    = firstn (Z.to_nat (maxFiles - Z.of_nat (shown + i))) files.
Proof.
  induction files as [|file rest IH]; intros i; simpl;
    [now rewrite firstn_nil|].
  destruct (Z.geb_spec (Z.of_nat (shown + i)) maxFiles) as [G|G].
  - replace (Z.to_nat (maxFiles - Z.of_nat (shown + i))) with 0%nat by lia.
    reflexivity.
  - rewrite IH.
    replace (Z.to_nat (maxFiles - Z.of_nat (shown + i)))
      with (S (Z.to_nat (maxFiles - Z.of_nat (shown + S i)))) by lia.
    reflexivity.
Qed.

(** Which files are read.  A single-file input reads the first selected
    file only; a multiple input reads the first [maxFiles - images.length]
    of them, none when that is not positive (in particular when the upload
    tile is not even offered); an empty or absent selection reads nothing. *)
Theorem handleFileChange_reads (multiple : bool) (maxFiles : Z)
    (images : list UploadedImage) (files : list File) :
  handleFileChange multiple maxFiles images (Some files)
  = firstn (if multiple
            then Z.to_nat (maxFiles - Z.of_nat (List.length images))
            else 1) files
  /\ handleFileChange multiple maxFiles images None = []
  /\ (multiple = true -> uploadOffered multiple maxFiles images = false ->
      handleFileChange multiple maxFiles images (Some files) = []).
Proof.
  assert (E : handleFileChange multiple maxFiles images (Some files)
              = firstn (if multiple
                        then Z.to_nat (maxFiles - Z.of_nat (List.length images))
                        else 1) files).
  { unfold handleFileChange. destruct multiple.
    - rewrite readFrom_multiple. now rewrite Nat.add_0_r.
    - destruct files as [|file rest]; reflexivity. }
  split; [exact E|]. split; [reflexivity|].
  intros -> H. rewrite E. unfold uploadOffered in H.
  apply Z.ltb_ge in H.
  replace (Z.to_nat (maxFiles - Z.of_nat (List.length images))) with 0%nat
    by lia.
  reflexivity.
Qed.

Lemma fold_handlePersonUpload_people (done : list UploadedImage) :
  forall w,
    people (state (fold_left (fun w image => handlePersonUpload image w)
                             done w))
    = (people (state w) ++ done)%list.
Proof.
  induction done as [|image done IH]; intros w; simpl;
    [now rewrite app_nil_r|].
  rewrite IH. simpl. now rewrite <- app_assoc.
Qed.

Lemma length_reads (maxFiles : Z) (shown : list UploadedImage)
    (selections : list (list File)) :
  List.length
    (flat_map (fun files => handleFileChange true maxFiles shown (Some files))
              selections)
  = list_sum
      (map (fun files =>
              Nat.min (Z.to_nat (maxFiles - Z.of_nat (List.length shown)))
                      (List.length files))
           selections).
Proof.
  induction selections as [|files selections IH]; [reflexivity|].
  cbn [flat_map map list_sum]. rewrite length_app, IH. f_equal.
  unfold handleFileChange.
  now rewrite readFrom_multiple, Nat.add_0_r, length_firstn.
Qed.

(** The cap on person images is checked per selection only, against the
    number of images shown when the files are selected, and every
    completed upload is appended.  For selections all made while the same
    images are shown (no read has completed yet, nothing else runs), each
    reads at most [maxFiles - images.length] files, and whichever of the
    reads complete, in whatever order, the people are then the earlier
    people followed by the completed uploads: exactly the sum of what the
    selections read when all reads complete, and at most [maxFiles] when
    there was one selection only, on a session within the cap. *)
Theorem person_cap_per_selection (maxFiles : Z) (w : World)
    (selections : list (list File)) (done : list UploadedImage) :
  let shown := people (state w) in
  let reads :=
    flat_map (fun files => handleFileChange true maxFiles shown (Some files))
             selections in
  let total :=
    list_sum
      (map (fun files =>
              Nat.min (Z.to_nat (maxFiles - Z.of_nat (List.length shown)))
                      (List.length files))
           selections) in
  List.length done <= List.length reads ->
  let w' := fold_left (fun w image => handlePersonUpload image w) done w in
  people (state w') = (shown ++ done)%list
  /\ List.length (people (state w')) <= List.length shown + total
  /\ (List.length done = List.length reads ->
      List.length (people (state w')) = List.length shown + total)
  /\ (List.length selections <= 1 ->
      (Z.of_nat (List.length shown) <= maxFiles)%Z ->
      (Z.of_nat (List.length (people (state w'))) <= maxFiles)%Z).
Proof.
  intros shown reads total Hdone w'.
  assert (L : List.length reads = total) by apply length_reads.
  rewrite L in *. subst w'.
  rewrite fold_handlePersonUpload_people, length_app. fold shown.
  split; [reflexivity|]. split; [lia|]. split; [lia|].
  intros Hone Hcap. subst total.
  destruct selections as [|files [|files' selections]]; simpl in *; lia.
Qed.

(** Two selections of five files each on an empty list, with the cap 5:
    ten people. *)
Lemma person_cap_per_selection_witness :
  let five := [ {| fileName := "a.png"; fileType := "image/png" |};
                {| fileName := "b.png"; fileType := "image/png" |};
                {| fileName := "c.png"; fileType := "image/png" |};
                {| fileName := "d.png"; fileType := "image/png" |};
                {| fileName := "e.png"; fileType := "image/png" |} ] in
  let uploads := [Samples.alice; Samples.bob; Samples.alice; Samples.bob;
                  Samples.alice; Samples.bob; Samples.alice; Samples.bob;
                  Samples.alice; Samples.bob] in
  List.length
    (people (state (fold_left (fun w image => handlePersonUpload image w)
                              uploads initialWorld)))
  = 10.
Proof.
  intros five uploads.
  apply (person_cap_per_selection 5 initialWorld [five; five] uploads).
  - simpl. lia.
  - reflexivity.
Defined.

Lemma split_app (sep : ascii) (head rest : string) :
  free sep head = true ->
  split sep (head ++ String sep rest) = head :: split sep rest.
Proof.
  induction head as [|c head IH]; simpl; intros H.
  - now rewrite Ascii.eqb_refl.
  - apply andb_true_iff in H as [Hc Hh]. apply negb_true_iff in Hc.
    now rewrite Hc, (IH Hh).
Qed.

Lemma split_free (sep : ascii) (s : string) :
  free sep s = true -> split sep s = [s].
Proof.
  induction s as [|c s IH]; simpl; intros H; [reflexivity|].
  apply andb_true_iff in H as [Hc Hs]. apply negb_true_iff in Hc.
  now rewrite Hc, (IH Hs).
Qed.

Lemma append_assoc_string (a b c : string) : a ++ (b ++ c) = (a ++ b) ++ c.
Proof. induction a as [|x a IH]; simpl; [reflexivity|now rewrite IH]. Qed.

Lemma free_app (sep : ascii) (a b : string) :
  free sep (a ++ b) = free sep a && free sep b.
Proof.
  induction a as [|x a IH]; simpl; [reflexivity|].
  now rewrite IH, andb_assoc.
Qed.

Lemma base64Of_split (header payload : string) :
  free "," header = true -> free "," payload = true ->
  base64Of (header ++ String "," payload) = Some payload.
Proof.
  intros Hh Hp. unfold base64Of.
  now rewrite (split_app _ _ _ Hh), (split_free _ _ Hp).
Qed.

(** [split(',')[1]] on a data URL.  Without any comma it is undefined; for
    a header and a payload without comma, "header,payload" gives the
    payload intact; and whatever follows a second comma is dropped. *)
Theorem base64Of_cases (header payload : string) :
  free "," header = true -> free "," payload = true ->
  base64Of header = None
  /\ base64Of (header ++ String "," payload) = Some payload
  /\ (forall rest,
         base64Of (header ++ String "," (payload ++ String "," rest))
         = Some payload).
Proof.
  intros Hh Hp. split; [|split].
  - unfold base64Of. now rewrite (split_free _ _ Hh).
  - now apply base64Of_split.
  - intros rest. unfold base64Of.
    now rewrite (split_app _ _ _ Hh), (split_app _ _ _ Hp).
Qed.

Lemma base64Of_cases_witness :
  base64Of "data:image/png;base64" = None
  /\ base64Of ("data:image/png;base64" ++ String "," "iVBORw0KGgo=")
     = Some "iVBORw0KGgo="
  /\ (forall rest,
         base64Of ("data:image/png;base64"
                     ++ String "," ("iVBORw0KGgo=" ++ String "," rest))
         = Some "iVBORw0KGgo=").
Proof.
  apply (base64Of_cases "data:image/png;base64" "iVBORw0KGgo=");
    reflexivity.
Defined.

(** From the file to the request: a file read as the data URL
    "data:<type>;base64,<payload>" is handed to [onUpload] as an image
    whose request part carries exactly that payload, labelled with
    [file.type], and whose dimensions are the decoded ones. *)
Theorem uploaded_part (randomId : string) (file : File)
    (payload : string) (imgWidth imgHeight : nat) :
  free "," (fileType file) = true -> free "," payload = true ->
  exists image,
    uploaded randomId file
      ("data:" ++ fileType file ++ ";base64," ++ payload) imgWidth imgHeight
    = Some image
    /\ GeminiService.inlinePart image
       = {| GenAI.inlineData :=
              Some {| GenAI.data := payload;
                      GenAI.mimeType := fileType file |};
            GenAI.text := None |}
    /\ id image = randomId
    /\ width image = Some (of_Z (Z.of_nat imgWidth))
    /\ height image = Some (of_Z (Z.of_nat imgHeight)).
Proof.
  intros Ht Hp. unfold uploaded.
  assert (E : base64Of ("data:" ++ fileType file ++ ";base64," ++ payload)
              = Some payload).
  { change (";base64," ++ payload) with (";base64" ++ String "," payload).
    rewrite 2 append_assoc_string.
    apply base64Of_split; [|exact Hp].
    rewrite 2 free_app, Ht. reflexivity. }
  rewrite E. eexists. repeat split.
Qed.

Lemma uploaded_part_witness :
  exists image,
    uploaded "k3x9q0z1a"
      {| fileName := "me.png"; fileType := "image/png" |}
      ("data:" ++ "image/png" ++ ";base64," ++ "iVBORw0KGgo=") 640 480
    = Some image
    /\ GeminiService.inlinePart image
       = {| GenAI.inlineData :=
              Some {| GenAI.data := "iVBORw0KGgo=";
                      GenAI.mimeType := "image/png" |};
            GenAI.text := None |}
    /\ id image = "k3x9q0z1a"
    /\ width image = Some (of_Z 640)
    /\ height image = Some (of_Z 480).
Proof.
  apply (uploaded_part "k3x9q0z1a"
           {| fileName := "me.png"; fileType := "image/png" |}
           "iVBORw0KGgo=" 640 480); reflexivity.
Defined.

End ImageInputFacts.

(** ** Invariants of every session *)

Module TraceFacts.
Import Control GenAI Types App Handlers Spec Trace.
Import JSStringFacts AdapterFacts SessionFacts.

Lemma act_remoteCalls (w : World) (a : Action) :
  remoteCalls (act w a) = remoteCalls w.
Proof. destruct a as [image|image| |id| |[u|e]]; reflexivity. Qed.

Lemma handleProcess_remoteCalls (generateContent : Models) (w : World) :
  remoteCalls (handleProcess generateContent w) = remoteCalls w
  \/ hasKey w = true
     /\ exists p, people (state w) <> []
                  /\ remoteCalls (handleProcess generateContent w)
                     = (remoteCalls w
                          ++ [GeminiService.request p (people (state w))])%list.
Proof.
  destruct (invocation generateContent w) as [outcome|] eqn:I.
  - right. destruct (invocation_some _ _ _ I) as (p' & K & _ & Q & _).
    destruct (handleProcess_invoked _ _ _ I) as (p & P & ->).
    split; [exact K|]. exists p. split.
    + intros E. now rewrite E in Q.
    + unfold handleProcessSettle. destruct outcome as [url|err];
        [reflexivity|now destruct (isKeyNotFound err)].
  - left. apply AppFacts.invocation_none in I. unfold handleProcess.
    destruct (hasKey w); [|reflexivity].
    destruct (poster (state w)) as [p|]; [|reflexivity].
    destruct (people (state w)) as [|x xs]; [reflexivity|].
    destruct I as [I|[I|I]]; discriminate.
Qed.

(** Whatever the user does and whatever the remote model answers, every
    request that ever leaves the session was built from a poster and at
    least one person: the model is never called with an incomplete
    payload. *)
Theorem every_request_is_complete (events : list Event) :
  Forall complete (remoteCalls (run events)).
Proof.
  unfold run.
  assert (H : forall w, Forall complete (remoteCalls w) ->
                        Forall complete (remoteCalls (fold_left step events w))).
  { induction events as [|e events IH]; intros w Hw; [exact Hw|].
    simpl. apply IH. destruct e as [[b|x]|a|generateContent]; simpl;
      try exact Hw.
    - now rewrite act_remoteCalls.
    - destruct (handleProcess_remoteCalls generateContent w)
        as [->|(_ & p & Q & ->)]; [exact Hw|].
      apply Forall_app. split; [exact Hw|].
      constructor; [|constructor]. now exists p, (people (state w)). }
  apply H. constructor.
Qed.

(** As long as no key check answers yes and no key dialog closes, no
    request is sent, however often the button is clicked. *)
Theorem no_key_no_request (events : list Event) :
  forallb (fun e => negb (grantsKey e)) events = true ->
  hasKey (run events) = false /\ remoteCalls (run events) = [].
Proof.
  unfold run.
  assert (H : forall w, hasKey w = false -> remoteCalls w = [] ->
              forallb (fun e => negb (grantsKey e)) events = true ->
              hasKey (fold_left step events w) = false
              /\ remoteCalls (fold_left step events w) = []).
  { induction events as [|e events IH]; intros w K R Hg; [now split|].
    simpl in Hg. apply andb_true_iff in Hg as [He Hg].
    apply negb_true_iff in He. simpl. apply IH; try exact Hg.
    - destruct e as [c|a|generateContent].
      + destruct c as [[|]|x]; [discriminate He | reflexivity | exact K].
      + destruct a as [image|image| |id| |[u|x]]; try exact K.
        discriminate He.
      + simpl. unfold handleProcess. now rewrite K.
    - destruct e as [[b|x]|a|generateContent]; simpl; try exact R.
      + now rewrite act_remoteCalls.
      + unfold handleProcess. now rewrite K. }
  intros Hg. now apply H.
Qed.

Lemma no_key_no_request_witness :
  remoteCalls
    (run [KeyCheck (Return false);
          User (PosterUpload Samples.thePoster);
          User (PersonUpload Samples.alice);
          Click (Samples.answering (Samples.answer [Samples.binary "XYZ"] None));
          User (OpenKeyDialog (Throw (Error "closed")));
          Click (Samples.answering (Samples.answer [Samples.binary "XYZ"] None))])
  = [].
Proof.
  apply (no_key_no_request
           [KeyCheck (Return false);
            User (PosterUpload Samples.thePoster);
            User (PersonUpload Samples.alice);
            Click (Samples.answering
                     (Samples.answer [Samples.binary "XYZ"] None));
            User (OpenKeyDialog (Throw (Error "closed")));
            Click (Samples.answering
                     (Samples.answer [Samples.binary "XYZ"] None))]
           eq_refl).
Defined.

Lemma act_displayable (w : World) (a : Action) :
  displayable (state w) -> displayable (state (act w a)).
Proof.
  intros [Hr He].
  destruct a as [image|image| |id| |[u|e]]; simpl; split;
    try exact Hr; try exact He; now left.
Qed.

Lemma handleProcessBegin_ready (generateContent : Models) (w : World)
    (p : UploadedImage) :
  hasKey w = true ->
  poster (state w) = Some p ->
  Nat.eqb (List.length (people (state w))) 0 = false ->
  fst (handleProcessBegin generateContent w)
  = record [GeminiService.request p (people (state w))] (setState started w).
Proof.
  intros K P Q. unfold handleProcessBegin. rewrite K, P, Q. reflexivity.
Qed.

(** The gate against a second generation is the processing flag alone, and
    a reset clears it: after a click on the enabled button, a reset and the
    upload of a poster and a person, the button is enabled again although
    the first promise has not settled, and a second click sends a second
    request. *)
Theorem reset_reopens_gate (first second : Models) (w : World)
    (p x : UploadedImage) :
  generateDisabled w = false ->
  let w1 := fst (handleProcessBegin first w) in
  let w2 := handlePersonUpload x (handlePosterUpload p (resetAll w1)) in
  generateDisabled w2 = false
  /\ exists p0,
       poster (state w) = Some p0
       /\ remoteCalls (fst (handleProcessBegin second w2))
          = (remoteCalls w
               ++ [GeminiService.request p0 (people (state w));
                   GeminiService.request p [x]])%list.
Proof.
  intros H w1 w2. subst w1 w2.
  unfold generateDisabled in H.
  apply orb_false_elim in H as [H K].
  apply orb_false_elim in H as [H Q].
  apply orb_false_elim in H as [_ P].
  apply negb_false_iff in K.
  destruct (poster (state w)) as [p0|] eqn:E; [|discriminate].
  rewrite (handleProcessBegin_ready first w p0 K E Q).
  split.
  - unfold generateDisabled. simpl. now rewrite K.
  - exists p0. split; [reflexivity|].
    rewrite (handleProcessBegin_ready second _ p); try reflexivity.
    + simpl. now rewrite <- app_assoc.
    + exact K.
Qed.

Lemma reset_reopens_gate_witness :
  generateDisabled
    (handlePersonUpload Samples.bob
       (handlePosterUpload Samples.thePoster
          (resetAll
             (fst (handleProcessBegin
                     (Samples.answering
                        (Samples.answer [Samples.binary "XYZ"] None))
                     {| hasKey := true; state := Samples.readySession;
                        remoteCalls := [] |})))))
  = false.
Proof.
  apply (reset_reopens_gate
           (Samples.answering (Samples.answer [Samples.binary "XYZ"] None))
           (Samples.answering (Samples.answer [Samples.binary "XYZ"] None))
           {| hasKey := true; state := Samples.readySession;
              remoteCalls := [] |}
           Samples.thePoster Samples.bob eq_refl).
Defined.

End TraceFacts.

(** ** Invariants of every session, generations in flight included *)

Module InterleavedFacts.
Import Control GenAI Types App Handlers Interleaved.
Import JSStringFacts AdapterFacts SessionFacts.

Lemma without_In {A : Type} (l : list A) :
  forall k x, In x (without k l) -> In x l.
Proof.
  unfold without. induction l as [|y l IH]; intros k x H.
  - now rewrite firstn_nil, skipn_nil in H.
  - destruct k as [|k]; simpl in H.
    + now right.
    + destruct H as [H|H]; [now left|]. right. now apply (IH k).
Qed.

Lemma handleProcessBegin_displayable (generateContent : Models) (w : World) :
  Trace.displayable (state w) ->
  Trace.displayable (state (fst (handleProcessBegin generateContent w)))
  /\ (forall outcome,
         snd (handleProcessBegin generateContent w) = Some outcome ->
         adapterOutcome outcome).
Proof.
  intros [Hr He]. unfold handleProcessBegin.
  destruct (hasKey w); simpl.
  - destruct (poster (state w)) as [p|].
    + destruct (Nat.eqb _ 0).
      * split; [|discriminate]. split; [exact Hr|]. right.
        exists NEED_PEOPLE_MESSAGE. split; [reflexivity|discriminate].
      * split; [split; now left|].
        intros outcome H. injection H as <-.
        apply (generateSwappedPoster_settle_cases generateContent p
                 (people (state w))).
    + split; [|discriminate]. split; [exact Hr|]. right.
      exists NEED_POSTER_MESSAGE. split; [reflexivity|discriminate].
  - split; [|discriminate]. split; [exact Hr|]. right.
    exists NEED_KEY_MESSAGE. split; [reflexivity|discriminate].
Qed.

Lemma handleProcessSettle_displayable (outcome : Completion string)
    (w : World) :
  adapterOutcome outcome ->
  Trace.displayable (state w) ->
  Trace.displayable (state (handleProcessSettle outcome w)).
Proof.
  intros [(d & ->)|(m & -> & Hne)] [Hr He].
  - split; [right; now exists d | exact He].
  - unfold handleProcessSettle, isKeyNotFound. cbn [message Error].
    destruct (String.eqb m "KEY_NOT_FOUND"); (split; [exact Hr|]); right.
    + exists INVALID_KEY_MESSAGE. split; [reflexivity|discriminate].
    + now exists m.
Qed.

Lemma step_displayable (s : Session) (e : Event) :
  Trace.displayable (state (world s)) /\ Forall adapterOutcome (pending s) ->
  Trace.displayable (state (world (step s e)))
  /\ Forall adapterOutcome (pending (step s e)).
Proof.
  intros [D P]. destruct e as [[b|x]|a|generateContent|k]; simpl.
  - now split.
  - now split.
  - split; [now apply TraceFacts.act_displayable | exact P].
  - destruct (handleProcessBegin_displayable generateContent (world s) D)
      as [D1 O].
    destruct (handleProcessBegin generateContent (world s)) as [w1 promise].
    simpl in *. split; [exact D1|].
    apply Forall_app. split; [exact P|].
    destruct promise as [outcome|]; constructor; [now apply O | constructor].
  - destruct (nth_error (pending s) k) as [outcome|] eqn:E; [|now split].
    simpl. rewrite Forall_forall in P. split.
    + apply handleProcessSettle_displayable; [|exact D].
      apply P. now apply (nth_error_In _ k).
    + apply Forall_forall. intros x Hx. apply P.
      now apply (without_In _ k).
Qed.

(** In every state the component can be in, with any number of
    generations in flight and their promises settling in any order
    between the user's actions, the stored result is empty or a PNG data
    reference and the stored error is empty or a non-empty message, so
    that what is stored is what is rendered: the error banner shows
    exactly the stored error, and a stored result is the image on
    display. *)
Theorem always_displayable (events : list Event) :
  let s := state (world (run events)) in
  Trace.displayable s
  /\ errorBanner s = error s
  /\ (forall src, result s = Some src -> resultPanel s = ResultImage src).
Proof.
  intros s.
  assert (D : Trace.displayable s).
  { subst s. unfold run.
    assert (H : forall s0,
               Trace.displayable (state (world s0))
               /\ Forall adapterOutcome (pending s0) ->
               Trace.displayable (state (world (fold_left step events s0)))
               /\ Forall adapterOutcome (pending (fold_left step events s0))).
    { induction events as [|e events IH]; intros s0 H0; [exact H0|].
      simpl. apply IH. now apply step_displayable. }
    apply H. split; [split; now left | constructor]. }
  split; [exact D|]. destruct D as [Hr He]. split.
  - unfold errorBanner. destruct He as [->|(m & -> & Hne)]; [reflexivity|].
    apply truthy_nonempty in Hne. now rewrite Hne.
  - intros src Hs. unfold resultPanel. rewrite Hs.
    destruct Hr as [Hr|(d & Hr)]; [congruence|].
    rewrite Hs in Hr. injection Hr as ->. reflexivity.
Qed.

(** The run that the atomic model misses: two generations in flight after
    a reset, the first fulfilled and the second rejected, leave the first
    image on display beside the error of the second. *)
Example earlier_image_beside_later_error :
  let s := state (world (run
    [User (OpenKeyDialog (Return tt));
     User (PosterUpload Samples.thePoster);
     User (PersonUpload Samples.alice);
     Click (Samples.answering (Samples.answer [Samples.binary "ONE"] None));
     User ResetAll;
     User (PosterUpload Samples.thePoster);
     User (PersonUpload Samples.bob);
     Click (Samples.throwing (Error "Failed to fetch"));
     Settle 0;
     Settle 0])) in
  resultPanel s = ResultImage "data:image/png;base64,ONE"
  /\ errorBanner s = Some "Failed to fetch".
Proof. split; reflexivity. Qed.

End InterleavedFacts.
